(** * PLTS monitoring: the acquisition, conversion and classification pipeline

    A shallow embedding of the two Arduino sketches of the repository:

    - the main monitor ([readAllSensors], [calculateElectricalParameters],
      [getSystemStatus]), which fills the global [SensorData] record once per
      cycle, and
    - the diagnostic light-sensor monitor ([calibrateLDR], [readLDRSensor]).

    The sketches compute with C++ [float] and [double] on an STM32 target:
    [float] is IEEE-754 binary32 and [double] is binary64, every operation is
    rounded to nearest-even in the type the usual arithmetic conversions give
    it, and a decimal literal such as [3.3] is a [double].  The embedding
    keeps all of that: values are [spec_float]s, operations are the
    parameterised ones of [SpecFloat] at (24,128) and (53,1024), and every
    assignment of a [double] expression to a [float] variable rounds. *)

From Stdlib Require Import ZArith List Ascii String Bool Lia QArith.
From Stdlib Require Import SpecFloat.
Import ListNotations.

Local Open Scope Z_scope.

(** ** Floating-point layer *)

Definition float32 := spec_float.
Definition float64 := spec_float.

(** Re-rounding of a value into the format [(prec, emax)]: the conversion
    between [float] and [double].  Widening is exact, it only brings the
    mantissa to the canonical width, which [SFcompare] relies on. *)
Definition round_to (prec emax : Z) (x : spec_float) : spec_float :=
  match x with
  | S754_finite s m e => binary_round prec emax s m e
  | _ => x
  end.

Definition isnan (x : spec_float) : bool :=
  match x with
  | S754_nan => true
  | _ => false
  end.

Definition is_finite (x : spec_float) : bool :=
  match x with
  | S754_zero _ | S754_finite _ _ _ => true
  | _ => false
  end.

Module F64.
Definition prec := 53.
Definition emax := 1024.
Definition of_Z (z : Z) : float64 := binary_normalize prec emax z 0 false.
Definition of_f32 (x : float32) : float64 := round_to prec emax x.
Definition add : float64 -> float64 -> float64 := SFadd prec emax.
Definition sub : float64 -> float64 -> float64 := SFsub prec emax.
Definition mul : float64 -> float64 -> float64 := SFmul prec emax.
Definition div : float64 -> float64 -> float64 := SFdiv prec emax.
Definition abs : float64 -> float64 := SFabs.
Definition ltb : float64 -> float64 -> bool := SFltb.
Definition leb : float64 -> float64 -> bool := SFleb.
Definition gtb (x y : float64) : bool := SFltb y x.
Definition geb (x y : float64) : bool := SFleb y x.
(** The [double] a compiler reads for the decimal literal [num/den]: the
    correctly rounded quotient of two exactly representable integers. *)
Definition dec (num den : Z) : float64 := div (of_Z num) (of_Z den).
End F64.

Module F32.
Definition prec := 24.
Definition emax := 128.
Definition of_Z (z : Z) : float32 := binary_normalize prec emax z 0 false.
Definition of_f64 (x : float64) : float32 := round_to prec emax x.
Definition mul : float32 -> float32 -> float32 := SFmul prec emax.
Definition sub : float32 -> float32 -> float32 := SFsub prec emax.
Definition eqb : float32 -> float32 -> bool := SFeqb.
Definition ltb : float32 -> float32 -> bool := SFltb.
Definition gtb (x y : float32) : bool := SFltb y x.
Definition div : float32 -> float32 -> float32 := SFdiv prec emax.
End F32.

(** The rational a finite float denotes (0 for infinities and NaN, which
    [is_finite] tells apart). *)
Definition F2Q (x : spec_float) : Q :=
  match x with
  | S754_finite s m e =>
      let z := cond_Zopp s (Zpos m) in
      match e with
      | Z0 => inject_Z z
      | Zpos p => inject_Z (z * Z.pow_pos 2 p)
      | Zneg p => Qmake z (Pos.pow 2 p)
      end
  | _ => 0%Q
  end.

Definition Qltb (x y : Q) : bool :=
  match Qcompare x y with
  | Lt => true
  | _ => false
  end.

(** The cast [(int)x] of a finite float: its integer part, rounded toward
    zero (the cast of an infinity or a NaN is undefined in C++; 0 here). *)
Definition float_to_int (x : float32) : Z :=
  match x with
  | S754_finite s m e =>
      match e with
      | Z0 => cond_Zopp s (Zpos m)
      | Zpos p => cond_Zopp s (Zpos m * Z.pow_pos 2 p)
      | Zneg p => cond_Zopp s (Zpos m / Z.pow_pos 2 p)
      end
  | _ => 0
  end.

(** ** Main monitor *)

(** Calibration constants of the main sketch. *)
Definition ADC_RESOLUTION : float64 := Eval vm_compute in F64.of_Z 4095.
Definition VREF : float64 := Eval vm_compute in F64.dec 33 10.
Definition ACS712_SENSITIVITY : float64 := Eval vm_compute in F64.dec 185 1000.

(** The [double] literals [0.1], [0.3], [0.9] and [2.7] of the sketches. *)
Definition lit_0_1 : float64 := Eval vm_compute in F64.dec 1 10.
Definition lit_0_3 : float64 := Eval vm_compute in F64.dec 3 10.
Definition lit_0_9 : float64 := Eval vm_compute in F64.dec 9 10.
Definition lit_2_7 : float64 := Eval vm_compute in F64.dec 27 10.

Record SensorData := mkSensorData {
  temperature : float32;
  humidity : float32;
  lightIntensity : float32;
  gridVoltage : float32;
  loadCurrent : float32;
  activePower : float32;
  powerFactor : float32;
  frequency : float32;
  irradiance : float32;
  dhtError : bool;
  ldrError : bool;
  voltageError : bool;
  currentError : bool
}.

(** Assignments to the fields of the global [data]. *)
Definition set_temperature (v : float32) (d : SensorData) : SensorData :=
  mkSensorData v (humidity d) (lightIntensity d) (gridVoltage d) (loadCurrent d)
    (activePower d) (powerFactor d) (frequency d) (irradiance d)
    (dhtError d) (ldrError d) (voltageError d) (currentError d).
Definition set_humidity (v : float32) (d : SensorData) : SensorData :=
  mkSensorData (temperature d) v (lightIntensity d) (gridVoltage d) (loadCurrent d)
    (activePower d) (powerFactor d) (frequency d) (irradiance d)
    (dhtError d) (ldrError d) (voltageError d) (currentError d).
Definition set_lightIntensity (v : float32) (d : SensorData) : SensorData :=
  mkSensorData (temperature d) (humidity d) v (gridVoltage d) (loadCurrent d)
    (activePower d) (powerFactor d) (frequency d) (irradiance d)
    (dhtError d) (ldrError d) (voltageError d) (currentError d).
Definition set_gridVoltage (v : float32) (d : SensorData) : SensorData :=
  mkSensorData (temperature d) (humidity d) (lightIntensity d) v (loadCurrent d)
    (activePower d) (powerFactor d) (frequency d) (irradiance d)
    (dhtError d) (ldrError d) (voltageError d) (currentError d).
Definition set_loadCurrent (v : float32) (d : SensorData) : SensorData :=
  mkSensorData (temperature d) (humidity d) (lightIntensity d) (gridVoltage d) v
    (activePower d) (powerFactor d) (frequency d) (irradiance d)
    (dhtError d) (ldrError d) (voltageError d) (currentError d).
Definition set_activePower (v : float32) (d : SensorData) : SensorData :=
  mkSensorData (temperature d) (humidity d) (lightIntensity d) (gridVoltage d)
    (loadCurrent d) v (powerFactor d) (frequency d) (irradiance d)
    (dhtError d) (ldrError d) (voltageError d) (currentError d).
Definition set_powerFactor (v : float32) (d : SensorData) : SensorData :=
  mkSensorData (temperature d) (humidity d) (lightIntensity d) (gridVoltage d)
    (loadCurrent d) (activePower d) v (frequency d) (irradiance d)
    (dhtError d) (ldrError d) (voltageError d) (currentError d).
Definition set_frequency (v : float32) (d : SensorData) : SensorData :=
  mkSensorData (temperature d) (humidity d) (lightIntensity d) (gridVoltage d)
    (loadCurrent d) (activePower d) (powerFactor d) v (irradiance d)
    (dhtError d) (ldrError d) (voltageError d) (currentError d).
Definition set_irradiance (v : float32) (d : SensorData) : SensorData :=
  mkSensorData (temperature d) (humidity d) (lightIntensity d) (gridVoltage d)
    (loadCurrent d) (activePower d) (powerFactor d) (frequency d) v
    (dhtError d) (ldrError d) (voltageError d) (currentError d).
Definition set_dhtError (b : bool) (d : SensorData) : SensorData :=
  mkSensorData (temperature d) (humidity d) (lightIntensity d) (gridVoltage d)
    (loadCurrent d) (activePower d) (powerFactor d) (frequency d) (irradiance d)
    b (ldrError d) (voltageError d) (currentError d).
Definition set_ldrError (b : bool) (d : SensorData) : SensorData :=
  mkSensorData (temperature d) (humidity d) (lightIntensity d) (gridVoltage d)
    (loadCurrent d) (activePower d) (powerFactor d) (frequency d) (irradiance d)
    (dhtError d) b (voltageError d) (currentError d).
Definition set_voltageError (b : bool) (d : SensorData) : SensorData :=
  mkSensorData (temperature d) (humidity d) (lightIntensity d) (gridVoltage d)
    (loadCurrent d) (activePower d) (powerFactor d) (frequency d) (irradiance d)
    (dhtError d) (ldrError d) b (currentError d).
Definition set_currentError (b : bool) (d : SensorData) : SensorData :=
  mkSensorData (temperature d) (humidity d) (lightIntensity d) (gridVoltage d)
    (loadCurrent d) (activePower d) (powerFactor d) (frequency d) (irradiance d)
    (dhtError d) (ldrError d) (voltageError d) b.

(** What the hardware hands to one cycle: the two results of the DHT driver
    and the three [analogRead] samples, in the order the sketch takes them. *)
Record RawInputs := mkRawInputs {
  dhtTemperature : float32;
  dhtHumidity : float32;
  ldrRaw : Z;
  voltageRaw : Z;
  currentRaw : Z
}.

(** [(raw * VREF) / ADC_RESOLUTION], an [int] times a [double], stored in a
    [float]. *)
Definition adcVoltage (raw : Z) : float32 :=
  F32.of_f64 (F64.div (F64.mul (F64.of_Z raw) VREF) ADC_RESOLUTION).

(** [(2500.0 / ldrVoltage) - 500.0] as stored in [data.lightIntensity]. *)
Definition ldrFormula (ldrVoltage : float32) : float32 :=
  F32.of_f64 (F64.sub (F64.div (F64.of_Z 2500) (F64.of_f32 ldrVoltage)) (F64.of_Z 500)).

(** [voltageADC * 220.0] as stored in [data.gridVoltage], before the limit. *)
Definition zmptVoltage (voltageADC : float32) : float32 :=
  F32.of_f64 (F64.mul (F64.of_f32 voltageADC) (F64.of_Z 220)).

(** [float currentOffset = VREF / 2.0], the same in every call. *)
Definition currentOffset : float32 :=
  Eval vm_compute in F32.of_f64 (F64.div VREF (F64.of_Z 2)).

(** [abs(currentVoltage / ACS712_SENSITIVITY)] as stored in
    [data.loadCurrent], before the limit; [abs] gives the magnitude. *)
Definition acsCurrent (currentADC : float32) : float32 :=
  let currentVoltage := F32.sub currentADC currentOffset in
  F32.of_f64 (F64.abs (F64.div (F64.of_f32 currentVoltage) ACS712_SENSITIVITY)).

(** The sketch as a sequence of statements on the global [data]: a
    statement takes the record and gives it back changed. *)
Definition State (A : Type) : Type := SensorData -> A * SensorData.

Definition ret {A : Type} (a : A) : State A := fun data => (a, data).

Definition bind {A B : Type} (c : State A) (k : A -> State B) : State B :=
  fun data => let (a, data') := c data in k a data'.

Declare Scope state_scope.
Notation "x <- c ;; k" := (bind c (fun x => k))
  (at level 61, c at next level, right associativity) : state_scope.
Notation "c ;;; k" := (bind c (fun _ => k))
  (at level 61, right associativity) : state_scope.
Local Open Scope state_scope.

(** Reading a field, assigning to one, and [if (c) s;] without an [else]. *)
Definition get {A : Type} (f : SensorData -> A) : State A := fun data => (f data, data).
Definition assign (f : SensorData -> SensorData) : State unit := fun data => (tt, f data).
Definition when (c : bool) (s : State unit) : State unit := if c then s else ret tt.

(** The record a statement leaves. *)
Definition exec (s : State unit) (data : SensorData) : SensorData := snd (s data).

Definition readAllSensors (hw : RawInputs) : State unit :=
  assign (set_temperature (dhtTemperature hw)) ;;;
  assign (set_humidity (dhtHumidity hw)) ;;;
  t <- get temperature ;;
  h <- get humidity ;;
  assign (set_dhtError (isnan t || isnan h)) ;;;
  let ldrVoltage := adcVoltage (ldrRaw hw) in
  assign (set_ldrError false) ;;;
  (if F64.gtb (F64.of_f32 ldrVoltage) lit_0_1 then
     assign (set_lightIntensity (ldrFormula ldrVoltage)) ;;;
     lux <- get lightIntensity ;;
     when (F32.ltb lux (F32.of_Z 0)) (assign (set_lightIntensity (F32.of_Z 0))) ;;;
     lux <- get lightIntensity ;;
     when (F32.gtb lux (F32.of_Z 50000)) (assign (set_lightIntensity (F32.of_Z 50000)))
   else
     assign (set_lightIntensity (F32.of_Z 0))) ;;;
  lux <- get lightIntensity ;;
  assign (set_irradiance (F32.of_f64 (F64.div (F64.of_f32 lux) (F64.of_Z 120)))) ;;;
  let voltageADC := adcVoltage (voltageRaw hw) in
  assign (set_voltageError false) ;;;
  assign (set_gridVoltage (zmptVoltage voltageADC)) ;;;
  let currentADC := adcVoltage (currentRaw hw) in
  assign (set_currentError false) ;;;
  assign (set_loadCurrent (acsCurrent currentADC)) ;;;
  v <- get gridVoltage ;;
  when (F32.gtb v (F32.of_Z 300)) (assign (set_gridVoltage (F32.of_Z 0))) ;;;
  i <- get loadCurrent ;;
  when (F32.gtb i (F32.of_Z 50)) (assign (set_loadCurrent (F32.of_Z 0))).

Definition calculateElectricalParameters : State unit :=
  assign (set_powerFactor (F32.of_f64 lit_0_9)) ;;;
  v <- get gridVoltage ;;
  i <- get loadCurrent ;;
  pf <- get powerFactor ;;
  assign (set_activePower (F32.mul (F32.mul v i) pf)) ;;;
  p <- get activePower ;;
  when (F32.gtb p (F32.of_Z 10000)) (assign (set_activePower (F32.of_Z 0))) ;;;
  p <- get activePower ;;
  when (F64.ltb (F64.of_f32 p) lit_0_1) (assign (set_activePower (F32.of_Z 0))) ;;;
  assign (set_frequency (F32.of_f64 (F64.of_Z 50))).

(** [getSystemStatus] only reads the record. *)
Definition getSystemStatus (data : SensorData) : string :=
  if F32.ltb (gridVoltage data) (F32.of_Z 180)
     || F32.gtb (gridVoltage data) (F32.of_Z 250)
  then "GRID FAULT"%string
  else if F32.gtb (activePower data) (F32.of_Z 5000) then "HIGH LOAD"%string
  else if F32.gtb (activePower data) (F32.of_Z 1000) then "NORMAL"%string
  else if F32.gtb (activePower data) (F32.of_Z 100) then "LOW LOAD"%string
  else "STANDBY"%string.

(** The computing part of [loop]: [readAllSensors] then
    [calculateElectricalParameters], on the global record. *)
Definition cycle (hw : RawInputs) (data : SensorData) : SensorData :=
  exec (readAllSensors hw ;;; calculateElectricalParameters) data.

Local Close Scope state_scope.

(** ** The display *)

(** The texts the sketches hand to [drawStr]: a literal, the buffer
    [dtostrf(v, width, prec, buf)] fills, that buffer after
    [strcat(buf, s)], and the Arduino [String(z)] and [String(v, digits)].
    The formatting itself is the library's and is left as a symbol. *)
Inductive Text :=
| Str (s : string)
| Dtostrf (v : float32) (width prec : Z)
| Strcat (t : Text) (s : string)
| StringInt (z : Z)
| StringFloat (v : float32) (digits : Z).

(** The calls made on the display object. *)
Inductive DisplayCall :=
| ClearBuffer
| SendBuffer
| SetFont (font : string)
| DrawStr (x y : Z) (t : Text)
| DrawLine (x1 y1 x2 y2 : Z).

Definition showCompleteMonitoring (data : SensorData) : list DisplayCall :=
  [SetFont "u8g2_font_5x7_tf";
   DrawStr 35 7 (Str "PLTS MONITORING");
   DrawLine 0 8 128 8;
   DrawStr 2 18 (Str "ENVIRONMENT");
   DrawStr 2 27 (Str "T:")]
  ++ (if dhtError data
      then [DrawStr 12 27 (Str "ERROR")]
      else [DrawStr 12 27 (Dtostrf (temperature data) 4 1);
            DrawStr 35 27 (Str "C")])
  ++ [DrawStr 2 35 (Str "RH:")]
  ++ (if dhtError data
      then [DrawStr 15 35 (Str "ERROR")]
      else [DrawStr 15 35 (Dtostrf (humidity data) 4 1);
            DrawStr 35 35 (Str "%")])
  ++ [DrawStr 2 43 (Str "Lux:");
      DrawStr 20 43
        (if F32.ltb (lightIntensity data) (F32.of_Z 1000)
         then Dtostrf (lightIntensity data) 3 0
         else Strcat (Dtostrf (F32.div (lightIntensity data) (F32.of_Z 1000)) 3 1) "k");
      DrawStr 2 51 (Str "Irr:");
      DrawStr 18 51 (Dtostrf (irradiance data) 4 0);
      DrawStr 35 51 (Str "W/m2");
      DrawLine 64 10 64 64;
      DrawStr 67 18 (Str "ELECTRICAL");
      DrawStr 67 27 (Str "V:");
      DrawStr 75 27 (Dtostrf (gridVoltage data) 5 1);
      DrawStr 110 27 (Str "VAC");
      DrawStr 67 35 (Str "I:");
      DrawStr 75 35 (Dtostrf (loadCurrent data) 4 2);
      DrawStr 110 35 (Str "AAC");
      DrawStr 67 43 (Str "P:")]
  ++ (if F32.ltb (activePower data) (F32.of_Z 1000)
      then [DrawStr 75 43 (Dtostrf (activePower data) 4 0);
            DrawStr 110 43 (Str "W")]
      else [DrawStr 75 43 (Dtostrf (F32.div (activePower data) (F32.of_Z 1000)) 3 2);
            DrawStr 110 43 (Str "kW")])
  ++ [DrawStr 67 51 (Str "PF:");
      DrawStr 80 51 (Dtostrf (powerFactor data) 3 2);
      DrawStr 67 59 (Str "f:");
      DrawStr 75 59 (Dtostrf (frequency data) 4 1);
      DrawStr 110 59 (Str "Hz");
      DrawLine 0 55 64 55;
      DrawStr 2 63 (Str (getSystemStatus data))].

Definition updateDisplay (data : SensorData) : list DisplayCall :=
  [ClearBuffer] ++ showCompleteMonitoring data ++ [SendBuffer].

(** One pass of [loop]: the record it leaves and the frame it draws (the
    [delay] that follows changes neither). *)
Definition loop (hw : RawInputs) (data : SensorData) : SensorData * list DisplayCall :=
  let data := cycle hw data in
  (data, updateDisplay data).

(** Whether a frame draws the literal text [s] somewhere. *)
Definition draws (s : string) (frame : list DisplayCall) : bool :=
  existsb (fun c => match c with
                    | DrawStr _ _ (Str t) => String.eqb s t
                    | _ => false
                    end) frame.

(** ** Diagnostic light-sensor monitor ([debug_ldr.ino]) *)

Module DebugLdr.

(** What goes to the serial port: [Serial.print] and [Serial.println] of a
    text, an [int], or a [float] with a number of decimals. *)
Inductive SerialItem :=
| SStr (s : string)
| SInt (z : Z)
| SFloat (x : float32) (digits : Z).

Inductive SerialEvent :=
| SerialPrint (i : SerialItem)
| SerialPrintln (i : SerialItem).

(** The globals of the sketch, the serial output so far, and how many
    [analogRead(LDR_PIN)] calls were made since power-up.  The display is
    only written to and is left out. *)
Record Sketch := mkSketch {
  adcValue : Z;
  voltage : float32;
  lightIntensity : float32;
  irradiance : float32;
  timestamp : Z;
  readingCount : Z;
  reads : nat;
  serial : list SerialEvent
}.

(** A step of the sketch: it changes the state and may fault (an integer
    division by zero is the only fault the code could raise). *)
Definition M (A : Type) : Type := Sketch -> option (A * Sketch).

Definition ret {A} (a : A) : M A := fun st => Some (a, st).

Definition bind {A B} (c : M A) (k : A -> M B) : M B :=
  fun st =>
    match c st with
    | Some (a, st') => k a st'
    | None => None
    end.

Definition fault {A} : M A := fun _ => None.

Declare Scope sketch_scope.
Notation "x <- c ;; k" := (bind c (fun x => k))
  (at level 61, c at next level, right associativity) : sketch_scope.
Notation "c ;;; k" := (bind c (fun _ => k))
  (at level 61, right associativity) : sketch_scope.
Local Open Scope sketch_scope.

Definition when (c : bool) (s : M unit) : M unit := if c then s else ret tt.

Definition get {A} (f : Sketch -> A) : M A := fun st => Some (f st, st).
Definition modify (f : Sketch -> Sketch) : M unit := fun st => Some (tt, f st).

Definition set_adcValue (v : Z) : M unit :=
  modify (fun st => mkSketch v (voltage st) (lightIntensity st) (irradiance st)
                      (timestamp st) (readingCount st) (reads st) (serial st)).
Definition set_voltage (v : float32) : M unit :=
  modify (fun st => mkSketch (adcValue st) v (lightIntensity st) (irradiance st)
                      (timestamp st) (readingCount st) (reads st) (serial st)).
Definition set_lightIntensity (v : float32) : M unit :=
  modify (fun st => mkSketch (adcValue st) (voltage st) v (irradiance st)
                      (timestamp st) (readingCount st) (reads st) (serial st)).
Definition set_irradiance (v : float32) : M unit :=
  modify (fun st => mkSketch (adcValue st) (voltage st) (lightIntensity st) v
                      (timestamp st) (readingCount st) (reads st) (serial st)).
Definition set_timestamp (v : Z) : M unit :=
  modify (fun st => mkSketch (adcValue st) (voltage st) (lightIntensity st) (irradiance st)
                      v (readingCount st) (reads st) (serial st)).
Definition set_readingCount (v : Z) : M unit :=
  modify (fun st => mkSketch (adcValue st) (voltage st) (lightIntensity st) (irradiance st)
                      (timestamp st) v (reads st) (serial st)).

Definition emit (e : SerialEvent) : M unit :=
  modify (fun st => mkSketch (adcValue st) (voltage st) (lightIntensity st) (irradiance st)
                      (timestamp st) (readingCount st) (reads st) (serial st ++ [e])).

(** [a / b] on [int]s: truncating, and a fault when [b] is 0. *)
Definition idiv (a b : Z) : M Z :=
  if b =? 0 then fault else ret (Z.quot a b).

(** [readingCount++] on a 32-bit [int]. *)
Definition wrap_int (z : Z) : Z := (z + 2 ^ 31) mod 2 ^ 32 - 2 ^ 31.

Section Hardware.

(** [analogRead k] is the sample the converter gives to the [k]-th read of
    the light channel. *)
Variable analogRead : nat -> Z.

Definition analogReadLDR : M Z :=
  fun st => Some (analogRead (reads st),
                  mkSketch (adcValue st) (voltage st) (lightIntensity st) (irradiance st)
                    (timestamp st) (readingCount st) (S (reads st)) (serial st)).

(** [for (i = 0; i < n; i++) { analogRead(LDR_PIN); delay(..); }] *)
Fixpoint stabilise (n : nat) : M unit :=
  match n with
  | O => ret tt
  | S k => analogReadLDR ;;; stabilise k
  end.

(** The averaging loop of [calibrateLDR] and [readLDRSensor]: [n] reads,
    those strictly between 10 and 4085 are added to [adcSum] and counted. *)
Fixpoint sampleLoop (n : nat) (adcSum validReadings : Z) : M (Z * Z) :=
  match n with
  | O => ret (adcSum, validReadings)
  | S k =>
      reading <- analogReadLDR ;;
      if (10 <? reading) && (reading <? 4085)
      then sampleLoop k (adcSum + reading) (validReadings + 1)
      else sampleLoop k adcSum validReadings
  end.

(** What the loop computes: the sum and the count after [n] reads that
    start at read number [start], and the state with [n] more reads made. *)
Fixpoint tally (start n : nat) (adcSum validReadings : Z) : Z * Z :=
  match n with
  | O => (adcSum, validReadings)
  | S k =>
      let reading := analogRead start in
      if (10 <? reading) && (reading <? 4085)
      then tally (S start) k (adcSum + reading) (validReadings + 1)
      else tally (S start) k adcSum validReadings
  end.

Definition advance (n : nat) (st : Sketch) : Sketch :=
  mkSketch (adcValue st) (voltage st) (lightIntensity st) (irradiance st)
    (timestamp st) (readingCount st) (n + reads st) (serial st).

(** [(float)adcValue * VREF / ADC_RESOLUTION] stored in [voltage]. *)
Definition voltageOfAdc (adc : Z) : float32 :=
  F32.of_f64 (F64.div (F64.mul (F64.of_f32 (F32.of_Z adc)) VREF) ADC_RESOLUTION).

(** [50000.0 - ((voltage - 0.3) * 50000.0 / 2.7)] stored in a [float]. *)
Definition linearMap (v : float32) : float32 :=
  F32.of_f64
    (F64.sub (F64.of_Z 50000)
       (F64.div (F64.mul (F64.sub (F64.of_f32 v) lit_0_3) (F64.of_Z 50000))
          lit_2_7)).

(** The two clamps that follow the linear map. *)
Definition clampLux : M unit :=
  li <- get lightIntensity ;;
  when (F32.ltb li (F32.of_Z 0)) (set_lightIntensity (F32.of_Z 0)) ;;;
  li <- get lightIntensity ;;
  when (F32.gtb li (F32.of_Z 50000)) (set_lightIntensity (F32.of_Z 50000)).

Definition calibrateLDR : M unit :=
  stabilise 50 ;;;
  r <- sampleLoop 20 0 0 ;;
  let '(adcSum, validReadings) := r in
  (if validReadings =? 0 then
     emit (SerialPrintln (SStr "WARNING: No valid readings during calibration!")) ;;;
     emit (SerialPrintln (SStr "Check LDR connection and lighting conditions")) ;;;
     set_adcValue 2048
   else
     q <- idiv adcSum validReadings ;;
     set_adcValue q ;;;
     emit (SerialPrint (SStr "Calibration complete. Average ADC: ")) ;;;
     emit (SerialPrintln (SInt q))) ;;;
  adc <- get adcValue ;;
  set_voltage (voltageOfAdc adc) ;;;
  v <- get voltage ;;
  (if F64.geb (F64.of_f32 v) (F64.of_Z 3) then
     set_lightIntensity (F32.of_Z 0) ;;;
     emit (SerialPrintln (SStr "Calibration: DARK condition detected"))
   else if F64.leb (F64.of_f32 v) lit_0_3 then
     set_lightIntensity (F32.of_Z 50000) ;;;
     emit (SerialPrintln (SStr "Calibration: BRIGHT condition detected"))
   else
     set_lightIntensity (linearMap v) ;;;
     clampLux ;;;
     emit (SerialPrint (SStr "Calibration: NORMAL condition. Lux: ")) ;;;
     li <- get lightIntensity ;;
     emit (SerialPrintln (SFloat li 2))) ;;;
  li <- get lightIntensity ;;
  set_irradiance (F32.of_f64 (F64.div (F64.of_f32 li) (F64.of_Z 120))).

Definition readLDRSensor (millis : Z) : M unit :=
  set_timestamp millis ;;;
  n <- get readingCount ;;
  set_readingCount (wrap_int (n + 1)) ;;;
  r <- sampleLoop 5 0 0 ;;
  let '(adcSum, validReadings) := r in
  (if validReadings =? 0 then
     emit (SerialPrintln (SStr "WARNING: No valid readings! Using previous value."))
   else
     q <- idiv adcSum validReadings ;;
     set_adcValue q) ;;;
  adc <- get adcValue ;;
  set_voltage (voltageOfAdc adc) ;;;
  v <- get voltage ;;
  (if F64.geb (F64.of_f32 v) (F64.of_Z 3) then
     set_lightIntensity (F32.of_Z 0)
   else if F64.leb (F64.of_f32 v) lit_0_3 then
     set_lightIntensity (F32.of_Z 50000)
   else
     set_lightIntensity (linearMap v) ;;;
     clampLux) ;;;
  li <- get lightIntensity ;;
  set_irradiance (F32.of_f64 (F64.div (F64.of_f32 li) (F64.of_Z 120))) ;;;
  li <- get lightIntensity ;;
  when (F32.eqb li (F32.of_Z 0) && F64.ltb (F64.of_f32 v) (F64.of_Z 3))
    (set_lightIntensity (F32.of_Z 1) ;;;
     set_irradiance (F32.of_f64 (F64.div (F64.of_Z 1) (F64.of_Z 120)))) ;;;
  adc <- get adcValue ;;
  when (4000 <? adc)
    (li <- get lightIntensity ;;
     emit (SerialPrint (SStr "HIGH ADC WARNING: ")) ;;;
     emit (SerialPrint (SInt adc)) ;;;
     emit (SerialPrint (SStr " -> V: ")) ;;;
     emit (SerialPrint (SFloat v 3)) ;;;
     emit (SerialPrint (SStr " -> Lux: ")) ;;;
     emit (SerialPrintln (SFloat li 2)) ;;;
     emit (SerialPrintln (SStr "Try increasing light or check sensor connection"))).

End Hardware.

(** [manualCalibrationCheck]: what it prints, and what it draws (the
    warning screen, held for three seconds, only when the baseline is above
    4000). *)
Definition manualCalibrationCheck : M (list DisplayCall) :=
  emit (SerialPrintln (SStr "=== MANUAL CALIBRATION CHECK ===")) ;;;
  emit (SerialPrintln (SStr "Current readings:")) ;;;
  adc <- get adcValue ;;
  v <- get voltage ;;
  li <- get lightIntensity ;;
  emit (SerialPrint (SStr "ADC: ")) ;;;
  emit (SerialPrintln (SInt adc)) ;;;
  emit (SerialPrint (SStr "Voltage: ")) ;;;
  emit (SerialPrint (SFloat v 3)) ;;;
  emit (SerialPrintln (SStr "V")) ;;;
  emit (SerialPrint (SStr "Lux: ")) ;;;
  emit (SerialPrintln (SFloat li 2)) ;;;
  frame <-
    (if 4000 <? adc then
       emit (SerialPrintln (SStr "⚠️  HIGH ADC DETECTED!")) ;;;
       emit (SerialPrintln (SStr "Possible causes:")) ;;;
       emit (SerialPrintln (SStr "1. LDR in dark environment")) ;;;
       emit (SerialPrintln (SStr "2. LDR not connected properly")) ;;;
       emit (SerialPrintln (SStr "3. Wrong pin connection (using DO instead of AO)")) ;;;
       emit (SerialPrintln (SStr "4. LDR sensor damaged")) ;;;
       emit (SerialPrintln (SStr (String "010"%char "Troubleshooting steps:"))) ;;;
       emit (SerialPrintln (SStr "1. Check if LDR is connected to AO pin")) ;;;
       emit (SerialPrintln (SStr "2. Try exposing LDR to light")) ;;;
       emit (SerialPrintln (SStr "3. Check wiring connections")) ;;;
       emit (SerialPrintln (SStr "4. Test with different LDR sensor")) ;;;
       ret [ClearBuffer;
            SetFont "u8g2_font_6x10_tf";
            DrawStr 10 15 (Str "HIGH ADC WARNING!");
            DrawStr 5 25 (Str "ADC: ");
            DrawStr 35 25 (StringInt adc);
            DrawStr 5 35 (Str "Check:");
            DrawStr 5 45 (Str "1. AO pin connection");
            DrawStr 5 55 (Str "2. Light exposure");
            SendBuffer]
     else if adc <? 100 then
       emit (SerialPrintln (SStr "⚠️  LOW ADC DETECTED!")) ;;;
       emit (SerialPrintln (SStr "Possible causes:")) ;;;
       emit (SerialPrintln (SStr "1. LDR exposed to very bright light")) ;;;
       emit (SerialPrintln (SStr "2. Short circuit")) ;;;
       emit (SerialPrintln (SStr "3. Wrong voltage reference")) ;;;
       ret []
     else
       emit (SerialPrintln (SStr "✅ ADC reading looks normal")) ;;;
       ret []) ;;
  emit (SerialPrintln (SStr "================================")) ;;;
  ret frame.

(** The frame [updateDisplay] draws from the globals. *)
Definition updateDisplay (st : Sketch) : list DisplayCall :=
  let li := lightIntensity st in
  let irr := irradiance st in
  [ClearBuffer;
   SetFont "u8g2_font_5x7_tf";
   DrawStr 30 7 (Str "LDR SENSOR DATA");
   DrawLine 0 8 128 8;
   DrawStr 2 16 (Str "Time: ");
   DrawStr 40 16 (StringInt (timestamp st));
   DrawStr 70 16 (Str " ms");
   DrawStr 2 24 (Str "Reading #");
   DrawStr 50 24 (StringInt (readingCount st));
   DrawLine 0 26 128 26;
   DrawStr 2 34 (Str "ADC: ");
   DrawStr 25 34 (StringInt (adcValue st));
   DrawStr 2 42 (Str "V: ");
   DrawStr 15 42 (StringFloat (voltage st) 3);
   DrawStr 45 42 (Str " V");
   DrawStr 2 50 (Str "Lux: ")]
  ++ (if F32.eqb li (F32.of_Z 0) then
        [DrawStr 25 50 (Str "0 (DARK)")]
      else if F32.ltb li (F32.of_Z 1000) then
        [DrawStr 25 50 (StringInt (float_to_int li))]
      else if F32.ltb li (F32.of_Z 10000) then
        [DrawStr 25 50 (StringFloat (F32.div li (F32.of_Z 1000)) 1);
         DrawStr 45 50 (Str " k")]
      else
        [DrawStr 25 50 (StringInt (float_to_int (F32.div li (F32.of_Z 1000))));
         DrawStr 45 50 (Str " k")])
  ++ [DrawStr 2 58 (Str "Irr: ")]
  ++ (if F32.eqb irr (F32.of_Z 0) then
        [DrawStr 20 58 (Str "0 W/m2")]
      else if F32.ltb irr (F32.of_Z 100) then
        [DrawStr 20 58 (StringFloat irr 1);
         DrawStr 45 58 (Str " W/m2")]
      else
        [DrawStr 20 58 (StringInt (float_to_int irr));
         DrawStr 45 58 (Str " W/m2")])
  ++ [SetFont "u8g2_font_6x10_tf";
      DrawStr 85 63
        (Str (if F32.gtb li (F32.of_Z 10000) then "BRIGHT"
              else if F32.gtb li (F32.of_Z 100) then "OK"
              else if F32.gtb li (F32.of_Z 0) then "LOW"
              else "DARK"));
      SendBuffer].

Definition printDataToSerial : M unit :=
  adc <- get adcValue ;;
  v <- get voltage ;;
  li <- get lightIntensity ;;
  irr <- get irradiance ;;
  n <- get readingCount ;;
  t <- get timestamp ;;
  emit (SerialPrintln (SStr "=== LDR SENSOR DATA ===")) ;;;
  emit (SerialPrint (SStr "ADC Value: ")) ;;;
  emit (SerialPrintln (SInt adc)) ;;;
  emit (SerialPrint (SStr "Voltage: ")) ;;;
  emit (SerialPrint (SFloat v 3)) ;;;
  emit (SerialPrintln (SStr " V")) ;;;
  emit (SerialPrint (SStr "Light Intensity: ")) ;;;
  emit (SerialPrint (SFloat li 1)) ;;;
  emit (SerialPrintln (SStr " Lux")) ;;;
  emit (SerialPrint (SStr "Solar Irradiance: ")) ;;;
  emit (SerialPrint (SFloat irr 1)) ;;;
  emit (SerialPrintln (SStr " W/m²")) ;;;
  emit (SerialPrint (SStr "Reading Count: ")) ;;;
  emit (SerialPrintln (SInt n)) ;;;
  emit (SerialPrint (SStr "Timestamp: ")) ;;;
  emit (SerialPrint (SInt t)) ;;;
  emit (SerialPrintln (SStr " ms")) ;;;
  emit (SerialPrintln (SStr "--- LIGHT CONDITION ---")) ;;;
  emit (SerialPrintln
          (SStr (if F32.gtb li (F32.of_Z 10000) then "Status: BRIGHT"
                 else if F32.gtb li (F32.of_Z 100) then "Status: NORMAL"
                 else if F32.gtb li (F32.of_Z 0) then "Status: LOW"
                 else "Status: DARK"))) ;;;
  emit (SerialPrintln (SStr "--- CALCULATION DETAILS ---")) ;;;
  emit (SerialPrint (SStr "ADC to Voltage: ")) ;;;
  emit (SerialPrint (SInt adc)) ;;;
  emit (SerialPrint (SStr " -> ")) ;;;
  emit (SerialPrint (SFloat v 3)) ;;;
  emit (SerialPrintln (SStr "V")) ;;;
  (if F64.geb (F64.of_f32 v) (F64.of_Z 3) then
     emit (SerialPrintln (SStr "Formula: DARK (0 Lux) - Voltage >= 3.0V"))
   else if F64.leb (F64.of_f32 v) lit_0_3 then
     emit (SerialPrintln (SStr "Formula: BRIGHT (50k Lux) - Voltage <= 0.3V"))
   else
     emit (SerialPrint (SStr "Formula: Linear Map - ")) ;;;
     let calcLux := linearMap v in
     emit (SerialPrint (SStr "50000 - ((")) ;;;
     emit (SerialPrint (SFloat v 3)) ;;;
     emit (SerialPrint (SStr " - 0.3) * 50000 / 2.7) = ")) ;;;
     emit (SerialPrint (SFloat calcLux 1)) ;;;
     emit (SerialPrintln (SStr " Lux"))) ;;;
  emit (SerialPrint (SStr "Voltage to Lux: ")) ;;;
  emit (SerialPrint (SFloat v 3)) ;;;
  emit (SerialPrint (SStr "V -> ")) ;;;
  emit (SerialPrint (SFloat li 1)) ;;;
  emit (SerialPrintln (SStr " Lux")) ;;;
  emit (SerialPrint (SStr "Lux to Irradiance: ")) ;;;
  emit (SerialPrint (SFloat li 1)) ;;;
  emit (SerialPrint (SStr " Lux -> ")) ;;;
  emit (SerialPrint (SFloat irr 1)) ;;;
  emit (SerialPrintln (SStr " W/m²")) ;;;
  emit (SerialPrintln (SStr "============================")) ;;;
  emit (SerialPrintln (SStr "")).

(** One pass of [loop]: [readLDRSensor], the frame of [updateDisplay], and
    [printDataToSerial]; [millis] is what the clock reads when the pass
    starts. *)
Definition loop (analogRead : nat -> Z) (millis : Z) : M (list DisplayCall) :=
  readLDRSensor analogRead millis ;;;
  frame <- get updateDisplay ;;
  printDataToSerial ;;;
  ret frame.

(** [n] passes of [loop], the clock reading [clock k] at the start of pass
    [k]; the frames are returned in order. *)
Fixpoint loops (analogRead : nat -> Z) (clock : nat -> Z) (k n : nat)
  : M (list (list DisplayCall)) :=
  match n with
  | O => ret []
  | S m =>
      frame <- loop analogRead (clock k) ;;
      frames <- loops analogRead clock (S k) m ;;
      ret (frame :: frames)
  end.

(** What a step prints: the serial output it leaves when started on an
    empty log ([printDataToSerial_run] and [manualCalibrationCheck_run]
    below show that a step appends just this to the log it finds). *)
Definition emitted {A : Type} (c : M A) (st : Sketch) : list SerialEvent :=
  match c (mkSketch (adcValue st) (voltage st) (lightIntensity st) (irradiance st)
             (timestamp st) (readingCount st) (reads st) []) with
  | Some (_, st') => serial st'
  | None => []
  end.

(** Whether the text [s] is among what was printed. *)
Definition prints (s : string) (out : list SerialEvent) : bool :=
  existsb (fun e => match e with
                    | SerialPrint (SStr t) | SerialPrintln (SStr t) => String.eqb s t
                    | _ => false
                    end) out.

(** The conversion of [readLDRSensor] and [calibrateLDR] read as functions
    of the stored voltage: the lux of the three-way test, and what the
    later "at least 1 lux" correction of [readLDRSensor] makes of it
    ([readLDRSensor_run] and [calibrateLDR_run] below show
    that the sketch computes just these). *)
Definition luxOfVoltage (v : float32) : float32 :=
  if F64.geb (F64.of_f32 v) (F64.of_Z 3) then F32.of_Z 0
  else if F64.leb (F64.of_f32 v) lit_0_3 then F32.of_Z 50000
  else
    let lux := linearMap v in
    let lux := if F32.ltb lux (F32.of_Z 0) then F32.of_Z 0 else lux in
    if F32.gtb lux (F32.of_Z 50000) then F32.of_Z 50000 else lux.

Definition atLeastOneLux (v lux : float32) : float32 :=
  if F32.eqb lux (F32.of_Z 0) && F64.ltb (F64.of_f32 v) (F64.of_Z 3)
  then F32.of_Z 1 else lux.

(** The globals as their initialisers leave them, before [setup]. *)
Definition power_up : Sketch :=
  mkSketch 0 (F32.of_Z 0) (F32.of_Z 0) (F32.of_Z 0) 0 0 O [].

End DebugLdr.

(** ** Finite checks over the converter's range *)

(** [p] holds of every integer from 0 up to [n - 1]. *)
Fixpoint forall_upto (n : nat) (p : Z -> bool) : bool :=
  match n with
  | O => true
  | S k => p (Z.of_nat k) && forall_upto k p
  end.

(** A record with nothing in it yet, and a cycle's inputs with only some of
    the channels of interest. *)
Definition blank : SensorData :=
  mkSensorData (F32.of_Z 0) (F32.of_Z 0) (F32.of_Z 0) (F32.of_Z 0) (F32.of_Z 0)
    (F32.of_Z 0) (F32.of_Z 0) (F32.of_Z 0) (F32.of_Z 0) false false false false.

Definition only_ldr (raw : Z) : RawInputs :=
  mkRawInputs (F32.of_Z 0) (F32.of_Z 0) raw 0 0.

Definition only_electrical (vraw craw : Z) : RawInputs :=
  mkRawInputs (F32.of_Z 0) (F32.of_Z 0) 0 vraw craw.

(** The light block of [readAllSensors] read as a function of the
    converter voltage: the lux and the irradiance it stores
    ([cycle_light_channel] below shows that the sketch computes just
    this). *)
Definition ldrChannel (ldrVoltage : float32) : float32 * float32 :=
  let lux :=
    if F64.gtb (F64.of_f32 ldrVoltage) lit_0_1 then
      let lux := ldrFormula ldrVoltage in
      let lux := if F32.ltb lux (F32.of_Z 0) then F32.of_Z 0 else lux in
      if F32.gtb lux (F32.of_Z 50000) then F32.of_Z 50000 else lux
    else F32.of_Z 0 in
  (lux, F32.of_f64 (F64.div (F64.of_f32 lux) (F64.of_Z 120))).

(** What is checked of each sample [raw] of the converter: on the light
    channel the stored lux is a number in [[0, 24500)] and the irradiance a
    number in [[0, 24500/120]]; on the current channel the converted
    magnitude is not above the 50 A limit. *)
Definition sample_in_bounds (raw : Z) : bool :=
  let v := adcVoltage raw in
  let '(lux, irr) := ldrChannel v in
  is_finite lux
  && Qle_bool 0 (F2Q lux)
  && Qltb (F2Q lux) (24500 # 1)
  && is_finite irr
  && Qle_bool 0 (F2Q irr)
  && Qle_bool (F2Q irr) (24500 # 120)
  && negb (F32.gtb (acsCurrent v) (F32.of_Z 50)).

(** Checks along the samples, each one seeing the sample before it:
    [f raw] is what is computed of the sample [raw] and [ok raw prev cur]
    what is asked of it, [prev] being what was computed of [raw - 1]. *)
Section Scan.

Context {A : Type}.
Variable f : Z -> A.
Variable ok : Z -> A -> A -> bool.

Fixpoint scan (n : nat) (raw : Z) (prev : A) : bool :=
  match n with
  | O => true
  | S k => let cur := f raw in ok raw prev cur && scan k (raw + 1) cur
  end.

End Scan.

(** Two floats with the same sign, mantissa and exponent. *)
Definition same_float (x y : spec_float) : bool :=
  match x, y with
  | S754_zero s, S754_zero s' => Bool.eqb s s'
  | S754_infinity s, S754_infinity s' => Bool.eqb s s'
  | S754_nan, S754_nan => true
  | S754_finite s m e, S754_finite s' m' e' =>
      Bool.eqb s s' && Pos.eqb m m' && Z.eqb e e'
  | _, _ => false
  end.

(** What the scan computes of a sample: the converter voltage, the grid
    voltage before its limit, the lux of the main monitor, and the lux of
    the diagnostic monitor's three-way test at that voltage. *)
Record Converted := mkConverted {
  cv_voltage : float32;
  cv_grid : float32;
  cv_mainLux : float32;
  cv_debugLux : float32
}.

Definition converted (raw : Z) : Converted :=
  let v := adcVoltage raw in
  mkConverted v (zmptVoltage v) (fst (ldrChannel v)) (DebugLdr.luxOfVoltage v).

(** What holds of a sample by itself.  The diagnostic monitor's
    [(float)adcValue] changes nothing, and the voltage is a number.  The
    grid voltage is a number, 0 at sample 0 only, at most 300 up to sample
    1692 and above 300 from there on, below 180 up to sample 1015, above
    250 from sample 1411 on.  The main monitor's light guard lets through
    the samples from 125 on, and their lux is positive.  The diagnostic
    monitor's dark guard holds from sample 3723 on, its bright guard up to
    sample 372, and in between the lux is strictly between 0 and 50000; it
    is a number from 0 to 50000 throughout, equal to 0 from sample 3723 on
    and above 0 before. *)
Definition sample_ok (raw : Z) (cur : Converted) : bool :=
  let v := cv_voltage cur in
  let grid := cv_grid cur in
  let lux := cv_debugLux cur in
  same_float (F64.of_f32 (F32.of_Z raw)) (F64.of_Z raw)
  && is_finite v
  && is_finite grid
  && Qle_bool 0 (F2Q grid)
  && Bool.eqb (Qltb 0 (F2Q grid)) (1 <=? raw)
  && (if raw <? 1693 then Qle_bool (F2Q grid) (300 # 1) else true)
  && Bool.eqb (F32.gtb grid (F32.of_Z 300)) (1693 <=? raw)
  && Bool.eqb (F32.ltb grid (F32.of_Z 180)) (raw <=? 1015)
  && Bool.eqb (F32.gtb grid (F32.of_Z 250)) (1411 <=? raw)
  && Bool.eqb (F64.gtb (F64.of_f32 v) lit_0_1) (125 <=? raw)
  && Bool.eqb (Qltb 0 (F2Q (cv_mainLux cur))) (125 <=? raw)
  && Bool.eqb (F64.geb (F64.of_f32 v) (F64.of_Z 3)) (3723 <=? raw)
  && Bool.eqb (F64.leb (F64.of_f32 v) lit_0_3) (raw <=? 372)
  && is_finite lux
  && Qle_bool 0 (F2Q lux)
  && Qle_bool (F2Q lux) (50000 # 1)
  && (if (372 <? raw) && (raw <? 3723)
      then Qltb 0 (F2Q lux) && Qltb (F2Q lux) (50000 # 1)
      else true)
  && Bool.eqb (F32.eqb lux (F32.of_Z 0)) (3723 <=? raw)
  && Bool.eqb (F32.gtb lux (F32.of_Z 0)) (raw <? 3723).

(** What holds of a sample and the one before it: the voltage goes up, the
    diagnostic monitor's lux does not, and from sample 126 on the main
    monitor's lux goes down. *)
Definition sample_step_ok (raw : Z) (prev cur : Converted) : bool :=
  Qltb (F2Q (cv_voltage prev)) (F2Q (cv_voltage cur))
  && Qle_bool (F2Q (cv_debugLux cur)) (F2Q (cv_debugLux prev))
  && (if 126 <=? raw
      then Qltb (F2Q (cv_mainLux cur)) (F2Q (cv_mainLux prev))
      else true)
  && sample_ok raw cur.

(** The five labels of the status line. *)
Definition status_labels : list string :=
  ["GRID FAULT"; "HIGH LOAD"; "NORMAL"; "LOW LOAD"; "STANDBY"]%string.

(** * Properties *)

(** ** The floating-point layer *)

(** The literals of the sketches are the IEEE-754 doubles one expects:
    [3.3] is [0x400A666666666666], [0.1] is [0x3FB999999999999A]. *)
Lemma literal_bits :
  VREF = S754_finite false 0x1A666666666666 (-51)
  /\ lit_0_1 = S754_finite false 0x1999999999999A (-56)
  /\ F32.of_f64 lit_0_9 = S754_finite false 0xE66666 (-24).
Proof. repeat split; vm_compute; reflexivity. Qed.

(** [SFcompare] is antisymmetric, whatever the mantissas. *)
Lemma SFcompare_antisym (x y : spec_float) (c : comparison) :
  SFcompare x y = Some c -> SFcompare y x = Some (CompOpp c).
Proof.
  destruct x as [sx|sx| |sx mx ex], y as [sy|sy| |sy my ey]; simpl;
    try discriminate;
    try (intros [= <-]; reflexivity);
    try (destruct sx; intros [= <-]; reflexivity);
    try (destruct sy; intros [= <-]; reflexivity);
    try (destruct sx, sy; intros [= <-]; reflexivity).
  intros [= <-]. f_equal.
  rewrite (Z.compare_antisym ex ey).
  pose proof (Pos.compare_cont_antisym mx my Eq) as Hm; simpl in Hm.
  rewrite <- Hm.
  destruct sx, sy; simpl; try reflexivity;
    destruct (ex ?= ey); simpl; try reflexivity;
    destruct (Pos.compare_cont Eq mx my); reflexivity.
Qed.

Lemma SFleb_not_gt (x y : spec_float) : SFleb x y = true -> SFltb y x = false.
Proof.
  unfold SFleb, SFltb.
  destruct (SFcompare x y) as [c|] eqn:E; [|discriminate].
  rewrite (SFcompare_antisym _ _ _ E).
  destruct c; simpl; congruence.
Qed.

(** ** Enumeration *)

Lemma forall_upto_spec (n : nat) (p : Z -> bool) :
  forall_upto n p = true -> forall z, 0 <= z < Z.of_nat n -> p z = true.
Proof.
  induction n as [|k IH]; simpl; intros H z Hz.
  - lia.
  - apply andb_true_iff in H as [Hk Hr].
    destruct (Z.eq_dec z (Z.of_nat k)) as [->|Hne]; [exact Hk|].
    apply IH; [exact Hr|lia].
Qed.

Lemma Qltb_lt (x y : Q) : Qltb x y = true -> (x < y)%Q.
Proof.
  unfold Qltb. rewrite Qlt_alt. destruct (x ?= y)%Q; congruence.
Qed.

(** Every sample of a 12-bit converter passes [sample_in_bounds]: all
    4096 of them are computed. *)
Lemma samples_in_bounds (raw : Z) :
  0 <= raw <= 4095 -> sample_in_bounds raw = true.
Proof.
  intros H.
  assert (A : forall_upto 4096 sample_in_bounds = true) by (vm_compute; reflexivity).
  apply (forall_upto_spec _ _ A). simpl. lia.
Qed.

(** A lux that the first clamp leaves below 0 is not above 50000. *)
Lemma negative_not_above_50000 (x : float32) :
  F32.ltb x (F32.of_Z 0) = true -> F32.gtb x (F32.of_Z 50000) = false.
Proof.
  unfold F32.ltb, F32.gtb, SFltb.
  replace (F32.of_Z 0) with (S754_zero false) by (vm_compute; reflexivity).
  replace (F32.of_Z 50000) with (S754_finite false 12800000 (-8))
    by (vm_compute; reflexivity).
  destruct x as [s|s| |s m e]; cbn [SFcompare]; try discriminate.
  - destruct s; [reflexivity|discriminate].
  - destruct s; [reflexivity|discriminate].
Qed.

(** ** The main monitor: what a cycle reads and what it overwrites *)

(** Symbolic execution of the statements of a cycle: the monad and the
    field assignments are computed away, and each conditional statement is
    decided when execution reaches it (its condition is then closed). *)
Ltac run_step :=
  cbv beta iota zeta delta
    [cycle exec readAllSensors calculateElectricalParameters
     bind ret get assign when fst snd
     set_temperature set_humidity set_lightIntensity set_gridVoltage
     set_loadCurrent set_activePower set_powerFactor set_frequency
     set_irradiance set_dhtError set_ldrError set_voltageError
     set_currentError temperature humidity lightIntensity gridVoltage
     loadCurrent activePower powerFactor frequency irradiance dhtError
     ldrError voltageError currentError dhtTemperature dhtHumidity ldrRaw
     voltageRaw currentRaw only_ldr only_electrical blank].

Ltac absurd_case :=
  match goal with
  | H : true = false |- _ => discriminate H
  | H : false = true |- _ => discriminate H
  end.

Ltac decide_next :=
  match goal with
  | |- context [if ?c then _ else _] => destruct c eqn:?; try absurd_case
  end.

Ltac run_cycle := run_step; repeat (decide_next; run_step).

(** A cycle overwrites every field of the global record: what it leaves
    does not depend on what was there. *)
Lemma cycle_overwrites (hw : RawInputs) (d d' : SensorData) :
  cycle hw d = cycle hw d'.
Proof.
  destruct hw, d, d'. run_cycle; reflexivity.
Qed.

Lemma cycle_unfold (hw : RawInputs) (d : SensorData) :
  cycle hw d = exec calculateElectricalParameters (exec (readAllSensors hw) d).
Proof.
  unfold cycle, exec, bind. destruct (readAllSensors hw d) as [[] d1]. reflexivity.
Qed.

(** [calculateElectricalParameters] on any record. *)
Lemma calculateElectricalParameters_spec (d : SensorData) :
  let r := exec calculateElectricalParameters d in
  let p := F32.mul (F32.mul (gridVoltage d) (loadCurrent d)) (F32.of_f64 lit_0_9) in
  lightIntensity r = lightIntensity d
  /\ irradiance r = irradiance d
  /\ gridVoltage r = gridVoltage d
  /\ loadCurrent r = loadCurrent d
  /\ powerFactor r = F32.of_f64 lit_0_9
  /\ frequency r = F32.of_f64 (F64.of_Z 50)
  /\ activePower r =
       (if F32.gtb p (F32.of_Z 10000) then F32.of_Z 0
        else if F64.ltb (F64.of_f32 p) lit_0_1 then F32.of_Z 0
        else p).
Proof.
  destruct d. run_cycle; repeat split; reflexivity.
Qed.

(** The light fields depend on the light sample only. *)
Lemma readAllSensors_light_local (hw : RawInputs) (d : SensorData) :
  let r := exec (readAllSensors hw) d in
  let r' := exec (readAllSensors (only_ldr (ldrRaw hw))) blank in
  lightIntensity r = lightIntensity r' /\ irradiance r = irradiance r'.
Proof.
  destruct hw, d. run_cycle; split; reflexivity.
Qed.

Lemma cycle_light_local (hw : RawInputs) (d : SensorData) :
  lightIntensity (cycle hw d) = lightIntensity (cycle (only_ldr (ldrRaw hw)) blank)
  /\ irradiance (cycle hw d) = irradiance (cycle (only_ldr (ldrRaw hw)) blank).
Proof.
  rewrite !cycle_unfold.
  destruct (calculateElectricalParameters_spec (exec (readAllSensors hw) d))
    as (-> & -> & _).
  destruct (calculateElectricalParameters_spec
              (exec (readAllSensors (only_ldr (ldrRaw hw))) blank))
    as (-> & -> & _).
  apply readAllSensors_light_local.
Qed.

(** The light fields are [ldrChannel] of the light sample. *)
Lemma readAllSensors_light_channel (hw : RawInputs) (d : SensorData) :
  let r := exec (readAllSensors hw) d in
  lightIntensity r = fst (ldrChannel (adcVoltage (ldrRaw hw)))
  /\ irradiance r = snd (ldrChannel (adcVoltage (ldrRaw hw))).
Proof.
  destruct hw, d. unfold ldrChannel. run_cycle; split; reflexivity.
Qed.

Lemma cycle_light_channel (hw : RawInputs) (d : SensorData) :
  lightIntensity (cycle hw d) = fst (ldrChannel (adcVoltage (ldrRaw hw)))
  /\ irradiance (cycle hw d) = snd (ldrChannel (adcVoltage (ldrRaw hw))).
Proof.
  rewrite cycle_unfold.
  destruct (calculateElectricalParameters_spec (exec (readAllSensors hw) d))
    as (-> & -> & _).
  apply readAllSensors_light_channel.
Qed.

(** The electrical fields depend on the voltage and current samples only. *)
Lemma readAllSensors_electrical_local (hw : RawInputs) (d : SensorData) :
  let r := exec (readAllSensors hw) d in
  let r' := exec (readAllSensors (only_electrical (voltageRaw hw) (currentRaw hw))) blank in
  gridVoltage r = gridVoltage r' /\ loadCurrent r = loadCurrent r'.
Proof.
  destruct hw, d. run_cycle; split; reflexivity.
Qed.

Lemma cycle_electrical_local (hw : RawInputs) (d : SensorData) :
  let e := cycle (only_electrical (voltageRaw hw) (currentRaw hw)) blank in
  gridVoltage (cycle hw d) = gridVoltage e
  /\ loadCurrent (cycle hw d) = loadCurrent e
  /\ activePower (cycle hw d) = activePower e.
Proof.
  cbv zeta. rewrite !cycle_unfold.
  destruct (calculateElectricalParameters_spec (exec (readAllSensors hw) d))
    as (_ & _ & -> & -> & _ & _ & ->).
  destruct (calculateElectricalParameters_spec
              (exec (readAllSensors (only_electrical (voltageRaw hw) (currentRaw hw))) blank))
    as (_ & _ & -> & -> & _ & _ & ->).
  destruct (readAllSensors_electrical_local hw d) as [-> ->].
  repeat split; reflexivity.
Qed.

(** The fields a cycle fills in without looking at anything but its
    inputs, and the two limited ones. *)
Lemma cycle_fields (hw : RawInputs) (d : SensorData) :
  let r := cycle hw d in
  let v := zmptVoltage (adcVoltage (voltageRaw hw)) in
  let i := acsCurrent (adcVoltage (currentRaw hw)) in
  temperature r = dhtTemperature hw
  /\ humidity r = dhtHumidity hw
  /\ dhtError r = isnan (dhtTemperature hw) || isnan (dhtHumidity hw)
  /\ ldrError r = false
  /\ voltageError r = false
  /\ currentError r = false
  /\ powerFactor r = F32.of_f64 lit_0_9
  /\ frequency r = F32.of_f64 (F64.of_Z 50)
  /\ gridVoltage r = (if F32.gtb v (F32.of_Z 300) then F32.of_Z 0 else v)
  /\ loadCurrent r = (if F32.gtb i (F32.of_Z 50) then F32.of_Z 0 else i).
Proof.
  destruct hw, d. run_cycle; repeat split; reflexivity.
Qed.

(** In the main monitor a light voltage that is not above 0.1 V gives 0. *)
Lemma cycle_light_low (hw : RawInputs) (d : SensorData) :
  F64.gtb (F64.of_f32 (adcVoltage (ldrRaw hw))) lit_0_1 = false ->
  lightIntensity (cycle hw d) = F32.of_Z 0
  /\ irradiance (cycle hw d) = F32.of_Z 0.
Proof.
  intros H.
  destruct (cycle_light_local hw d) as [-> ->].
  unfold only_ldr. destruct hw as [t h l v c]; simpl in H.
  run_step. rewrite H. run_step.
  repeat (decide_next; run_step); split; vm_compute; reflexivity.
Qed.

(** ** The claims about the main monitor *)

(** C3.  [getSystemStatus] always answers with one of the five labels, and
    picks it in priority order: a grid voltage below 180 or above 250 gives
    "GRID FAULT" whatever the power; otherwise an active power above 5000
    gives "HIGH LOAD", else above 1000 "NORMAL", else above 100 "LOW LOAD",
    else "STANDBY".  In particular a grid voltage of 260 gives "GRID FAULT"
    for every active power. *)
Theorem getSystemStatus_priority (d : SensorData) :
  let v := gridVoltage d in
  let p := activePower d in
  In (getSystemStatus d) status_labels
  /\ (F32.ltb v (F32.of_Z 180) = true \/ F32.gtb v (F32.of_Z 250) = true ->
      getSystemStatus d = "GRID FAULT"%string)
  /\ (F32.ltb v (F32.of_Z 180) = false -> F32.gtb v (F32.of_Z 250) = false ->
      (F32.gtb p (F32.of_Z 5000) = true -> getSystemStatus d = "HIGH LOAD"%string)
      /\ (F32.gtb p (F32.of_Z 5000) = false -> F32.gtb p (F32.of_Z 1000) = true ->
          getSystemStatus d = "NORMAL"%string)
      /\ (F32.gtb p (F32.of_Z 5000) = false -> F32.gtb p (F32.of_Z 1000) = false ->
          F32.gtb p (F32.of_Z 100) = true -> getSystemStatus d = "LOW LOAD"%string)
      /\ (F32.gtb p (F32.of_Z 5000) = false -> F32.gtb p (F32.of_Z 1000) = false ->
          F32.gtb p (F32.of_Z 100) = false -> getSystemStatus d = "STANDBY"%string))
  /\ (v = F32.of_Z 260 -> getSystemStatus d = "GRID FAULT"%string).
Proof.
  cbv zeta. unfold getSystemStatus, status_labels.
  split; [|split; [|split]].
  - destruct (F32.ltb (gridVoltage d) (F32.of_Z 180) || F32.gtb (gridVoltage d) (F32.of_Z 250)).
    { simpl; auto. }
    destruct (F32.gtb (activePower d) (F32.of_Z 5000)); [simpl; auto|].
    destruct (F32.gtb (activePower d) (F32.of_Z 1000)); [simpl; auto|].
    destruct (F32.gtb (activePower d) (F32.of_Z 100)); simpl; auto 6.
  - intros [H|H]; rewrite H; [|rewrite orb_true_r]; reflexivity.
  - intros H1 H2. rewrite H1, H2. simpl.
    split; [|split; [|split]].
    + intros H3. rewrite H3. reflexivity.
    + intros H3 H4. rewrite H3, H4. reflexivity.
    + intros H3 H4 H5. rewrite H3, H4, H5. reflexivity.
    + intros H3 H4 H5. rewrite H3, H4, H5. reflexivity.
  - intros H. rewrite H. reflexivity.
Qed.

Lemma getSystemStatus_priority_witness :
  let at_ (v p : Z) := set_activePower (F32.of_Z p) (set_gridVoltage (F32.of_Z v) blank) in
  getSystemStatus (at_ 260 6000) = "GRID FAULT"%string
  /\ getSystemStatus (at_ 170 6000) = "GRID FAULT"%string
  /\ getSystemStatus (at_ 220 6000) = "HIGH LOAD"%string
  /\ getSystemStatus (at_ 220 2000) = "NORMAL"%string
  /\ getSystemStatus (at_ 220 500) = "LOW LOAD"%string
  /\ getSystemStatus (at_ 220 50) = "STANDBY"%string.
Proof.
  intros at_.
  split.
  { destruct (getSystemStatus_priority (at_ 260 6000)) as (_ & _ & _ & H).
    apply H; reflexivity. }
  split.
  { destruct (getSystemStatus_priority (at_ 170 6000)) as (_ & H & _).
    apply H; left; reflexivity. }
  split.
  { destruct (getSystemStatus_priority (at_ 220 6000)) as (_ & _ & H & _).
    apply H; reflexivity. }
  split.
  { destruct (getSystemStatus_priority (at_ 220 2000)) as (_ & _ & H & _).
    apply H; reflexivity. }
  split.
  { destruct (getSystemStatus_priority (at_ 220 500)) as (_ & _ & H & _).
    apply H; reflexivity. }
  destruct (getSystemStatus_priority (at_ 220 50)) as (_ & _ & H & _).
  apply H; reflexivity.
Defined.

(** C4.  When the converted grid voltage is above 300 the record holds
    exactly 0 and not the converted value; when the converted current is
    above 50 the record holds exactly 0 and not the converted value.  Below
    the limits the record holds the converted values. *)
Theorem limits_force_zero (hw : RawInputs) (d : SensorData) :
  let r := cycle hw d in
  let v := zmptVoltage (adcVoltage (voltageRaw hw)) in
  let i := acsCurrent (adcVoltage (currentRaw hw)) in
  (F32.gtb v (F32.of_Z 300) = true ->
   gridVoltage r = F32.of_Z 0 /\ gridVoltage r <> v)
  /\ (F32.gtb v (F32.of_Z 300) = false -> gridVoltage r = v)
  /\ (F32.gtb i (F32.of_Z 50) = true ->
      loadCurrent r = F32.of_Z 0 /\ loadCurrent r <> i)
  /\ (F32.gtb i (F32.of_Z 50) = false -> loadCurrent r = i).
Proof.
  cbv zeta.
  destruct (cycle_fields hw d) as (_ & _ & _ & _ & _ & _ & _ & _ & Hv & Hi).
  rewrite Hv, Hi.
  split; [|split; [|split]].
  - intros H. rewrite H. split; [reflexivity|].
    intros E. rewrite <- E in H. vm_compute in H. discriminate H.
  - intros H. rewrite H. reflexivity.
  - intros H. rewrite H. split; [reflexivity|].
    intros E. rewrite <- E in H. vm_compute in H. discriminate H.
  - intros H. rewrite H. reflexivity.
Qed.

Lemma limits_force_zero_witness :
  let hw := mkRawInputs (F32.of_Z 25) (F32.of_Z 60) 1000 2048 20000 in
  gridVoltage (cycle hw blank) = F32.of_Z 0
  /\ loadCurrent (cycle hw blank) = F32.of_Z 0.
Proof.
  intros hw.
  destruct (limits_force_zero hw blank) as (Hv & _ & Hi & _).
  split.
  - apply Hv. vm_compute. reflexivity.
  - apply Hi. vm_compute. reflexivity.
Defined.

(** On the samples a 12-bit converter can give, the current limit is never
    reached: the largest converted current is under 9 A. *)
Lemma current_limit_unreached (raw : Z) :
  0 <= raw <= 4095 ->
  F32.gtb (acsCurrent (adcVoltage raw)) (F32.of_Z 50) = false.
Proof.
  intros H. pose proof (samples_in_bounds raw H) as B.
  unfold sample_in_bounds in B.
  destruct (ldrChannel (adcVoltage raw)) as [lux irr].
  apply andb_true_iff in B. destruct B as [_ B].
  apply negb_true_iff in B. exact B.
Qed.

(** C5.  [calculateElectricalParameters] sets the power factor to 0.9 and
    the frequency to 50, and leaves an active power that is the product
    [gridVoltage * loadCurrent * powerFactor] of the record, except that it
    is exactly 0 when that product is above 10000 or below 0.1.  Every
    cycle ends with this function. *)
Theorem activePower_formula :
  (forall d : SensorData,
     let r := exec calculateElectricalParameters d in
     let p := F32.mul (F32.mul (gridVoltage r) (loadCurrent r)) (powerFactor r) in
     powerFactor r = F32.of_f64 lit_0_9
     /\ frequency r = F32.of_Z 50
     /\ (F32.gtb p (F32.of_Z 10000) = true \/ F64.ltb (F64.of_f32 p) lit_0_1 = true ->
         activePower r = F32.of_Z 0)
     /\ (F32.gtb p (F32.of_Z 10000) = false ->
         F64.ltb (F64.of_f32 p) lit_0_1 = false ->
         activePower r = p))
  /\ (forall (hw : RawInputs) (d : SensorData),
        cycle hw d = exec calculateElectricalParameters (exec (readAllSensors hw) d)).
Proof.
  split; [|exact cycle_unfold].
  intros d. cbv zeta.
  destruct (calculateElectricalParameters_spec d) as (_ & _ & -> & -> & -> & -> & ->).
  split; [reflexivity|].
  split; [vm_compute; reflexivity|].
  split.
  - intros [H|H].
    + rewrite H. reflexivity.
    + rewrite H. destruct (F32.gtb _ _); reflexivity.
  - intros H1 H2. rewrite H1, H2. reflexivity.
Qed.

Lemma activePower_formula_witness :
  let at_ (v i : Z) := set_loadCurrent (F32.of_Z i) (set_gridVoltage (F32.of_Z v) blank) in
  activePower (exec calculateElectricalParameters (at_ 240 50)) = F32.of_Z 0
  /\ activePower (exec calculateElectricalParameters (at_ 0 5)) = F32.of_Z 0
  /\ activePower (exec calculateElectricalParameters (at_ 230 10))
     = F32.mul (F32.mul (F32.of_Z 230) (F32.of_Z 10)) (F32.of_f64 lit_0_9).
Proof.
  intros at_.
  split.
  { destruct (proj1 activePower_formula (at_ 240 50)) as (_ & _ & H & _).
    apply H. left. vm_compute. reflexivity. }
  split.
  { destruct (proj1 activePower_formula (at_ 0 5)) as (_ & _ & H & _).
    apply H. right. vm_compute. reflexivity. }
  destruct (proj1 activePower_formula (at_ 230 10)) as (_ & _ & _ & H).
  apply H; vm_compute; reflexivity.
Defined.

(** C7.  The record's [dhtError] is set exactly when the driver gave a NaN
    for the temperature or for the humidity; it is the one flag for both
    values, which are stored as the driver gave them. *)
Theorem dhtError_iff_nan (hw : RawInputs) (d : SensorData) :
  let r := cycle hw d in
  (dhtError r = true <->
   isnan (dhtTemperature hw) = true \/ isnan (dhtHumidity hw) = true)
  /\ temperature r = dhtTemperature hw
  /\ humidity r = dhtHumidity hw.
Proof.
  cbv zeta.
  destruct (cycle_fields hw d) as (Ht & Hh & He & _).
  rewrite Ht, Hh, He. split; [|split; reflexivity].
  apply orb_true_iff.
Qed.

Lemma dhtError_iff_nan_witness :
  dhtError (cycle (mkRawInputs S754_nan (F32.of_Z 60) 1000 1000 2048) blank) = true
  /\ dhtError (cycle (mkRawInputs (F32.of_Z 25) S754_nan 1000 1000 2048) blank) = true.
Proof.
  split.
  - apply (dhtError_iff_nan (mkRawInputs S754_nan (F32.of_Z 60) 1000 1000 2048) blank).
    left. reflexivity.
  - apply (dhtError_iff_nan (mkRawInputs (F32.of_Z 25) S754_nan 1000 1000 2048) blank).
    right. reflexivity.
Defined.

(** C8.  The record and the label a cycle produces are functions of the
    cycle's raw inputs: whatever the global record held before, the same
    inputs leave the same record, field for field, and the same label; in
    particular a second run on the same inputs changes nothing. *)
Theorem cycle_deterministic (hw : RawInputs) (d d' : SensorData) :
  cycle hw d = cycle hw d'
  /\ getSystemStatus (cycle hw d) = getSystemStatus (cycle hw d')
  /\ cycle hw (cycle hw d) = cycle hw d.
Proof.
  pose proof (cycle_overwrites hw d d') as H.
  split; [exact H|]. split; [rewrite H; reflexivity|].
  apply cycle_overwrites.
Qed.

(** C9.  After every cycle the three analog error flags are false. *)
Theorem analog_flags_false (hw : RawInputs) (d : SensorData) :
  ldrError (cycle hw d) = false
  /\ voltageError (cycle hw d) = false
  /\ currentError (cycle hw d) = false.
Proof.
  destruct (cycle_fields hw d) as (_ & _ & _ & Hl & Hv & Hc & _).
  auto.
Qed.

(** C10.  In the main monitor, for every light sample of a 12-bit converter
    the stored lux is a number from 0 up to, but not reaching, 24500: the
    formula's value is never above 50000 where it is used, so the upper
    clamp is never taken and 50000 is never stored; the irradiance is a
    number from 0 to 24500/120. *)
Theorem main_lux_below_24500 (hw : RawInputs) (d : SensorData) :
  0 <= ldrRaw hw <= 4095 ->
  let r := cycle hw d in
  let v := adcVoltage (ldrRaw hw) in
  (F64.gtb (F64.of_f32 v) lit_0_1 = true ->
   F32.gtb (ldrFormula v) (F32.of_Z 50000) = false)
  /\ is_finite (lightIntensity r) = true
  /\ (0 <= F2Q (lightIntensity r) < 24500 # 1)%Q
  /\ lightIntensity r <> F32.of_Z 50000
  /\ is_finite (irradiance r) = true
  /\ (0 <= F2Q (irradiance r) <= 24500 # 120)%Q.
Proof.
  intros H. cbv zeta.
  destruct (cycle_light_channel hw d) as [-> ->].
  pose proof (samples_in_bounds (ldrRaw hw) H) as B.
  unfold sample_in_bounds in B.
  destruct (ldrChannel (adcVoltage (ldrRaw hw))) as [lux irr] eqn:C.
  cbn [fst snd].
  repeat (apply andb_true_iff in B; destruct B as [B ?]).
  assert (N : lux <> F32.of_Z 50000).
  { intros E.
    match goal with
    | L : Qltb (F2Q lux) _ = true |- _ => rewrite E in L; vm_compute in L; discriminate L
    end. }
  split; [|split; [|split; [|split; [|split]]]].
  - intros G.
    assert (Cl : fst (ldrChannel (adcVoltage (ldrRaw hw))) = lux)
      by (rewrite C; reflexivity).
    unfold ldrChannel in Cl. cbv zeta in Cl. cbn [fst] in Cl. rewrite G in Cl.
    destruct (F32.ltb (ldrFormula (adcVoltage (ldrRaw hw))) (F32.of_Z 0)) eqn:L.
    + apply negative_not_above_50000. exact L.
    + destruct (F32.gtb (ldrFormula (adcVoltage (ldrRaw hw))) (F32.of_Z 50000));
        [|reflexivity].
      exfalso. apply N. symmetry. exact Cl.
  - assumption.
  - split; [apply Qle_bool_iff; assumption|apply Qltb_lt; assumption].
  - exact N.
  - assumption.
  - split; apply Qle_bool_iff; assumption.
Qed.

Lemma main_lux_below_24500_witness :
  let r := cycle (mkRawInputs (F32.of_Z 25) (F32.of_Z 60) 125 1000 2048) blank in
  (0 <= F2Q (lightIntensity r) < 24500 # 1)%Q
  /\ F2Q (lightIntensity r) == 12450909 # 512
  /\ (0 <= F2Q (irradiance r) <= 24500 # 120)%Q.
Proof.
  intros r.
  destruct (main_lux_below_24500
              (mkRawInputs (F32.of_Z 25) (F32.of_Z 60) 125 1000 2048) blank)
    as (_ & _ & Hl & _ & _ & Hi).
  { simpl. lia. }
  split; [exact Hl|]. split; [|exact Hi].
  vm_compute. reflexivity.
Defined.

(** C1 as the sketch has it.  With the voltage and the current sample both
    at 2048 the converter voltage is about 1.65 V and the converted grid
    voltage is between 363 and 364, above the limit of 300; the record then
    holds a grid voltage of 0 and an active power of 0, and, 0 being below
    180, the label is "GRID FAULT". *)
Theorem mid_scale_cycle (hw : RawInputs) (d : SensorData) :
  voltageRaw hw = 2048 -> currentRaw hw = 2048 ->
  let r := cycle hw d in
  let v := zmptVoltage (adcVoltage 2048) in
  (165 # 100 < F2Q (adcVoltage 2048) < 166 # 100)%Q
  /\ (363 # 1 < F2Q v < 364 # 1)%Q
  /\ F32.gtb v (F32.of_Z 300) = true
  /\ gridVoltage r = F32.of_Z 0
  /\ activePower r = F32.of_Z 0
  /\ F32.ltb (gridVoltage r) (F32.of_Z 180) = true
  /\ getSystemStatus r = "GRID FAULT"%string.
Proof.
  intros Hv Hc. cbv zeta.
  destruct (cycle_electrical_local hw d) as (Eg & _ & Ea).
  rewrite Hv, Hc in Eg, Ea.
  assert (G : gridVoltage (cycle hw d) = F32.of_Z 0)
    by (rewrite Eg; vm_compute; reflexivity).
  assert (P : activePower (cycle hw d) = F32.of_Z 0)
    by (rewrite Ea; vm_compute; reflexivity).
  split; [split; vm_compute; reflexivity|].
  split; [split; vm_compute; reflexivity|].
  split; [vm_compute; reflexivity|].
  split; [exact G|]. split; [exact P|].
  unfold getSystemStatus. rewrite G, P.
  split; vm_compute; reflexivity.
Qed.

Lemma mid_scale_cycle_witness :
  let r := cycle (mkRawInputs (F32.of_Z 25) (F32.of_Z 60) 1000 2048 2048) blank in
  gridVoltage r = F32.of_Z 0
  /\ activePower r = F32.of_Z 0
  /\ getSystemStatus r = "GRID FAULT"%string.
Proof.
  intros r.
  destruct (mid_scale_cycle
              (mkRawInputs (F32.of_Z 25) (F32.of_Z 60) 1000 2048 2048) blank
              eq_refl eq_refl)
    as (_ & _ & _ & G & P & _ & S).
  exact (conj G (conj P S)).
Defined.

(** The label of that cycle is not "STANDBY". *)
Lemma mid_scale_cycle_not_standby :
  getSystemStatus
    (cycle (mkRawInputs (F32.of_Z 25) (F32.of_Z 60) 1000 2048 2048) blank)
  <> "STANDBY"%string.
Proof. vm_compute. discriminate. Qed.

(** ** The diagnostic monitor *)

Section DebugLdrLoops.

Variable analogRead : nat -> Z.

Lemma stabilise_run (n : nat) (st : DebugLdr.Sketch) :
  DebugLdr.stabilise analogRead n st = Some (tt, DebugLdr.advance n st).
Proof.
  revert st. induction n as [|k IH]; intros st.
  - destruct st; reflexivity.
  - simpl. unfold DebugLdr.bind at 1. unfold DebugLdr.analogReadLDR at 1.
    rewrite IH. unfold DebugLdr.advance; simpl.
    rewrite Nat.add_succ_r. reflexivity.
Qed.

Lemma sampleLoop_run (n : nat) (adcSum validReadings : Z) (st : DebugLdr.Sketch) :
  DebugLdr.sampleLoop analogRead n adcSum validReadings st
  = Some (DebugLdr.tally analogRead (DebugLdr.reads st) n adcSum validReadings,
          DebugLdr.advance n st).
Proof.
  revert adcSum validReadings st.
  induction n as [|k IH]; intros adcSum validReadings st.
  - destruct st; reflexivity.
  - simpl. unfold DebugLdr.bind at 1. unfold DebugLdr.analogReadLDR at 1.
    destruct ((10 <? analogRead (DebugLdr.reads st))
              && (analogRead (DebugLdr.reads st) <? 4085));
      rewrite IH; unfold DebugLdr.advance; simpl;
      rewrite Nat.add_succ_r; reflexivity.
Qed.

(** Reads within 10 of a rail leave the sum and the count as they were. *)
Lemma tally_all_rejected (n start : nat) (adcSum validReadings : Z) :
  (forall k, (start <= k < start + n)%nat ->
             analogRead k <= 10 \/ 4085 <= analogRead k) ->
  DebugLdr.tally analogRead start n adcSum validReadings = (adcSum, validReadings).
Proof.
  revert start. induction n as [|m IH]; intros start H; simpl.
  - reflexivity.
  - assert (R : (10 <? analogRead start) && (analogRead start <? 4085) = false).
    { apply andb_false_iff. destruct (H start ltac:(lia)) as [L|L].
      - left. apply Z.ltb_ge. exact L.
      - right. apply Z.ltb_ge. exact L. }
    rewrite R. apply IH. intros k Hk. apply H. lia.
Qed.

(** The count never goes down, and the sum of counted reads stays within
    what a [long] holds: every counted read is between 11 and 4084. *)
Lemma tally_bounds (n start : nat) (adcSum validReadings : Z) :
  let r := DebugLdr.tally analogRead start n adcSum validReadings in
  validReadings <= snd r <= validReadings + Z.of_nat n
  /\ adcSum + 11 * (snd r - validReadings) <= fst r
     <= adcSum + 4084 * (snd r - validReadings).
Proof.
  revert start adcSum validReadings.
  induction n as [|m IH]; intros start adcSum validReadings; cbv zeta.
  - cbn [DebugLdr.tally fst snd]. lia.
  - cbn [DebugLdr.tally].
    destruct ((10 <? analogRead start) && (analogRead start <? 4085)) eqn:E.
    + apply andb_true_iff in E as [E1 E2].
      apply Z.ltb_lt in E1, E2.
      specialize (IH (S start) (adcSum + analogRead start) (validReadings + 1)).
      cbv zeta in IH. lia.
    + specialize (IH (S start) adcSum validReadings). cbv zeta in IH. lia.
Qed.

End DebugLdrLoops.

(** Symbolic execution of the diagnostic sketch, as for the main one. *)
Ltac run_sketch_step :=
  cbv beta iota zeta delta
    [DebugLdr.calibrateLDR DebugLdr.readLDRSensor DebugLdr.clampLux
     DebugLdr.bind DebugLdr.ret DebugLdr.get DebugLdr.modify DebugLdr.when
     DebugLdr.fault DebugLdr.idiv DebugLdr.emit
     DebugLdr.set_adcValue DebugLdr.set_voltage DebugLdr.set_lightIntensity
     DebugLdr.set_irradiance DebugLdr.set_timestamp DebugLdr.set_readingCount
     DebugLdr.adcValue DebugLdr.voltage DebugLdr.lightIntensity
     DebugLdr.irradiance DebugLdr.timestamp DebugLdr.readingCount
     DebugLdr.reads DebugLdr.serial DebugLdr.advance].

Ltac run_sketch := run_sketch_step; repeat (decide_next; run_sketch_step).

(** The same on a closed condition, which is computed. *)
Ltac compute_next :=
  match goal with
  | |- context [if ?c then _ else _] =>
      let b := eval vm_compute in c in
      replace c with b by (vm_compute; reflexivity)
  end.

Ltac compute_sketch := run_sketch_step; repeat (compute_next; run_sketch_step).

Lemma calibrateLDR_total (analogRead : nat -> Z) (st : DebugLdr.Sketch) :
  exists st', DebugLdr.calibrateLDR analogRead st = Some (tt, st').
Proof.
  unfold DebugLdr.calibrateLDR.
  unfold DebugLdr.bind at 1. rewrite stabilise_run.
  unfold DebugLdr.bind at 1. rewrite sampleLoop_run.
  destruct (DebugLdr.tally analogRead _ 20 0 0) as [adcSum validReadings].
  destruct st.
  run_sketch.
  all: eexists; reflexivity.
Qed.

(** C6.  [calibrateLDR] never faults, whatever the converter gives; and
    when each of the 20 calibration reads (the 50 settling reads come
    first) is within 10 of a rail, it prints the two warning lines and
    takes the mid-scale value 2048 as the baseline, which it then converts
    as usual. *)
Theorem calibrateLDR_fallback :
  (forall (analogRead : nat -> Z) (st : DebugLdr.Sketch),
      exists st', DebugLdr.calibrateLDR analogRead st = Some (tt, st'))
  /\ (forall (analogRead : nat -> Z) (st : DebugLdr.Sketch),
        (forall k, (DebugLdr.reads st + 50 <= k < DebugLdr.reads st + 70)%nat ->
                   analogRead k <= 10 \/ 4085 <= analogRead k) ->
        exists st',
          DebugLdr.calibrateLDR analogRead st = Some (tt, st')
          /\ DebugLdr.adcValue st' = 2048
          /\ DebugLdr.voltage st' = DebugLdr.voltageOfAdc 2048
          /\ DebugLdr.serial st' =
               DebugLdr.serial st ++
               [DebugLdr.SerialPrintln
                  (DebugLdr.SStr "WARNING: No valid readings during calibration!");
                DebugLdr.SerialPrintln
                  (DebugLdr.SStr "Check LDR connection and lighting conditions");
                DebugLdr.SerialPrint
                  (DebugLdr.SStr "Calibration: NORMAL condition. Lux: ");
                DebugLdr.SerialPrintln
                  (DebugLdr.SFloat (DebugLdr.lightIntensity st') 2)]).
Proof.
  split; [exact calibrateLDR_total|].
  intros analogRead st H.
  unfold DebugLdr.calibrateLDR.
  unfold DebugLdr.bind at 1. rewrite stabilise_run.
  unfold DebugLdr.bind at 1. rewrite sampleLoop_run.
  rewrite tally_all_rejected.
  2:{ intros k Hk. apply H. unfold DebugLdr.advance in Hk. simpl in Hk. lia. }
  destruct st as [a v l i t c r s].
  compute_sketch.
  eexists. split; [reflexivity|].
  cbn [DebugLdr.adcValue DebugLdr.voltage DebugLdr.serial DebugLdr.lightIntensity].
  split; [reflexivity|]. split; [reflexivity|].
  rewrite <- !app_assoc. reflexivity.
Qed.

Lemma calibrateLDR_fallback_witness :
  exists st',
    DebugLdr.calibrateLDR (fun _ => 4090) DebugLdr.power_up = Some (tt, st')
    /\ DebugLdr.adcValue st' = 2048.
Proof.
  destruct (proj2 calibrateLDR_fallback (fun _ => 4090) DebugLdr.power_up)
    as (st' & Hrun & Hadc & _).
  - intros k _. right. lia.
  - exists st'. split; [exact Hrun|exact Hadc].
Defined.

(** The two guards of the diagnostic monitor exclude each other: a voltage
    at or below 0.3 is not at or above 3.0. *)
Lemma low_guard_not_high (w : float64) :
  F64.leb w lit_0_3 = true -> F64.geb w (F64.of_Z 3) = false.
Proof.
  unfold F64.leb, F64.geb, SFleb.
  replace lit_0_3 with (S754_finite false 5404319552844595 (-54))
    by (vm_compute; reflexivity).
  replace (F64.of_Z 3) with (S754_finite false 6755399441055744 (-51))
    by (vm_compute; reflexivity).
  destruct w as [s|s| |s m e]; cbn [SFcompare].
  - reflexivity.
  - destruct s; [reflexivity|discriminate].
  - discriminate.
  - destruct s; [reflexivity|].
    destruct (Z.compare_spec e (-54)) as [->|L|L].
    + intros _. reflexivity.
    + intros _. replace (-51 ?= e) with Gt; [reflexivity|].
      symmetry. apply Z.compare_gt_iff. lia.
    + discriminate.
Qed.

Lemma eqb_50000_0 : F32.eqb (F32.of_Z 50000) (F32.of_Z 0) = false.
Proof. vm_compute. reflexivity. Qed.

(** [readLDRSensor] and its two guards. *)
Lemma readLDRSensor_guards (analogRead : nat -> Z) (millis : Z) (st : DebugLdr.Sketch) :
  exists st',
    DebugLdr.readLDRSensor analogRead millis st = Some (tt, st')
    /\ (F64.leb (F64.of_f32 (DebugLdr.voltage st')) lit_0_3 = true ->
        DebugLdr.lightIntensity st' = F32.of_Z 50000
        /\ DebugLdr.irradiance st'
           = F32.of_f64 (F64.div (F64.of_Z 50000) (F64.of_Z 120)))
    /\ (F64.geb (F64.of_f32 (DebugLdr.voltage st')) (F64.of_Z 3) = true ->
        DebugLdr.lightIntensity st' = F32.of_Z 0
        /\ DebugLdr.irradiance st' = F32.of_Z 0).
Proof.
  unfold DebugLdr.readLDRSensor.
  do 3 (unfold DebugLdr.bind at 1;
        cbn [DebugLdr.set_timestamp DebugLdr.set_readingCount DebugLdr.modify DebugLdr.get]).
  unfold DebugLdr.bind at 1. rewrite sampleLoop_run.
  destruct (DebugLdr.tally analogRead _ 5 0 0) as [adcSum validReadings].
  destruct st as [a v l i t c r s].
  run_sketch.
  all: eexists; (split; [reflexivity|]);
    cbn [DebugLdr.voltage DebugLdr.lightIntensity DebugLdr.irradiance];
    split; intros G.
  all: try congruence.
  all: try (apply low_guard_not_high in G; congruence).
  all: try (split; vm_compute; reflexivity).
  all: try match goal with
           | H : F32.eqb (F32.of_Z 50000) (F32.of_Z 0) && _ = true |- _ =>
               rewrite eqb_50000_0 in H; discriminate H
           | H : _ && F64.ltb _ _ = true |- _ =>
               apply andb_true_iff in H; destruct H as [_ H];
               apply SFleb_not_gt in G; unfold F64.ltb in H; congruence
           end.
Qed.

(** The guards of the two light conversions, side by side.  In the
    diagnostic monitor every voltage at or below the low guard 0.3 gives
    50000 lux and the irradiance 50000/120 (416.67 to two decimals), and
    every voltage at or above the high guard 3.0 gives exactly 0 lux.  The
    main monitor departs from this: its one guard is at 0.1, every voltage
    at or below it gives 0 lux and 0 irradiance, and it has no high guard
    (the top sample 4095 gives about 257.6 lux). *)
Theorem light_guards :
  (forall (analogRead : nat -> Z) (millis : Z) (st : DebugLdr.Sketch),
      exists st',
        DebugLdr.readLDRSensor analogRead millis st = Some (tt, st')
        /\ (F64.leb (F64.of_f32 (DebugLdr.voltage st')) lit_0_3 = true ->
            DebugLdr.lightIntensity st' = F32.of_Z 50000
            /\ DebugLdr.irradiance st'
               = F32.of_f64 (F64.div (F64.of_Z 50000) (F64.of_Z 120)))
        /\ (F64.geb (F64.of_f32 (DebugLdr.voltage st')) (F64.of_Z 3) = true ->
            DebugLdr.lightIntensity st' = F32.of_Z 0
            /\ DebugLdr.irradiance st' = F32.of_Z 0))
  /\ (416666 # 1000
      < F2Q (F32.of_f64 (F64.div (F64.of_Z 50000) (F64.of_Z 120)))
      < 416667 # 1000)%Q
  /\ (forall (hw : RawInputs) (d : SensorData),
        F64.leb (F64.of_f32 (adcVoltage (ldrRaw hw))) lit_0_1 = true ->
        lightIntensity (cycle hw d) = F32.of_Z 0
        /\ irradiance (cycle hw d) = F32.of_Z 0)
  /\ (forall (hw : RawInputs) (d : SensorData),
        ldrRaw hw = 4095 ->
        (257 # 1 < F2Q (lightIntensity (cycle hw d)) < 258 # 1)%Q).
Proof.
  split; [exact readLDRSensor_guards|].
  split; [split; vm_compute; reflexivity|].
  split.
  - intros hw d H. apply cycle_light_low.
    apply SFleb_not_gt. exact H.
  - intros hw d H.
    destruct (cycle_light_local hw d) as [-> _]. rewrite H.
    split; vm_compute; reflexivity.
Qed.

Lemma light_guards_witness :
  (exists st',
      DebugLdr.readLDRSensor (fun _ => 62) 1000 DebugLdr.power_up = Some (tt, st')
      /\ DebugLdr.lightIntensity st' = F32.of_Z 50000)
  /\ (exists st',
         DebugLdr.readLDRSensor (fun _ => 4000) 1000 DebugLdr.power_up = Some (tt, st')
         /\ DebugLdr.lightIntensity st' = F32.of_Z 0)
  /\ lightIntensity
       (cycle (mkRawInputs (F32.of_Z 25) (F32.of_Z 60) 62 1000 2048) blank)
     = F32.of_Z 0.
Proof.
  split; [|split].
  - destruct (proj1 light_guards (fun _ => 62) 1000 DebugLdr.power_up)
      as (st' & Hrun & Hlow & _).
    exists st'. split; [exact Hrun|].
    apply Hlow.
    vm_compute in Hrun. injection Hrun as <-. vm_compute. reflexivity.
  - destruct (proj1 light_guards (fun _ => 4000) 1000 DebugLdr.power_up)
      as (st' & Hrun & _ & Hhigh).
    exists st'. split; [exact Hrun|].
    apply Hhigh.
    vm_compute in Hrun. injection Hrun as <-. vm_compute. reflexivity.
  - apply (proj1 (proj2 (proj2 light_guards))
             (mkRawInputs (F32.of_Z 25) (F32.of_Z 60) 62 1000 2048) blank).
    vm_compute. reflexivity.
Defined.

(** C2 fails in the main monitor.  The light sample 62 is about 0.05 V, at
    or below the guard: [readAllSensors] stores 0 lux and 0 irradiance for
    it, not 50000 and 416.67, while [readLDRSensor] of the diagnostic
    monitor, given the same sample, stores 50000 lux. *)
Lemma main_low_voltage_is_dark :
  let r := cycle (mkRawInputs (F32.of_Z 25) (F32.of_Z 60) 62 1000 2048) blank in
  (49 # 1000 < F2Q (adcVoltage 62) < 51 # 1000)%Q
  /\ F64.leb (F64.of_f32 (adcVoltage 62)) lit_0_1 = true
  /\ lightIntensity r = F32.of_Z 0
  /\ lightIntensity r <> F32.of_Z 50000
  /\ irradiance r = F32.of_Z 0
  /\ exists st',
       DebugLdr.readLDRSensor (fun _ => 62) 1000 DebugLdr.power_up = Some (tt, st')
       /\ DebugLdr.adcValue st' = 62
       /\ DebugLdr.lightIntensity st' = F32.of_Z 50000.
Proof.
  cbv zeta.
  split; [split; vm_compute; reflexivity|].
  split; [vm_compute; reflexivity|].
  split; [vm_compute; reflexivity|].
  split; [vm_compute; discriminate|].
  split; [vm_compute; reflexivity|].
  eexists. split; [vm_compute; reflexivity|].
  split; vm_compute; reflexivity.
Qed.

Lemma scan_spec {A : Type} (f : Z -> A) (ok : Z -> A -> A -> bool) (n : nat) :
  forall raw,
    scan f ok n raw (f (raw - 1)) = true ->
    forall i, raw <= i < raw + Z.of_nat n -> ok i (f (i - 1)) (f i) = true.
Proof.
  induction n as [|k IH]; intros raw H i Hi.
  - lia.
  - cbn [scan] in H. apply andb_true_iff in H as [H0 Hr].
    destruct (Z.eq_dec i raw) as [->|Hne]; [exact H0|].
    apply (IH (raw + 1)).
    + replace (raw + 1 - 1) with raw by lia. exact Hr.
    + lia.
Qed.

Lemma same_float_eq (x y : spec_float) : same_float x y = true -> x = y.
Proof.
  destruct x as [s|s| |s m e], y as [s'|s'| |s' m' e']; simpl; try discriminate.
  - intros H. apply Bool.eqb_prop in H. congruence.
  - intros H. apply Bool.eqb_prop in H. congruence.
  - reflexivity.
  - intros H. apply andb_true_iff in H as [H He].
    apply andb_true_iff in H as [Hs Hm].
    apply Bool.eqb_prop in Hs. apply Pos.eqb_eq in Hm. apply Z.eqb_eq in He.
    congruence.
Qed.

(** All 4096 samples are computed, once. *)
Lemma samples_scanned :
  sample_ok 0 (converted 0) = true
  /\ forall raw, 1 <= raw <= 4095 ->
       sample_step_ok raw (converted (raw - 1)) (converted raw) = true.
Proof.
  assert (A : sample_ok 0 (converted 0)
              && scan converted sample_step_ok 4095 1 (converted 0) = true).
  { vm_compute. reflexivity. }
  apply andb_true_iff in A as [A0 A1].
  split; [exact A0|].
  intros raw H. apply (scan_spec converted sample_step_ok 4095 1 A1). simpl. lia.
Qed.

(** What the scan tells of one sample. *)
Lemma sample_props (raw : Z) :
  0 <= raw <= 4095 ->
  let v := adcVoltage raw in
  let g := zmptVoltage v in
  let ml := fst (ldrChannel v) in
  let dl := DebugLdr.luxOfVoltage v in
  F64.of_f32 (F32.of_Z raw) = F64.of_Z raw
  /\ is_finite v = true
  /\ (is_finite g = true /\ (0 <= F2Q g)%Q)
  /\ Qltb 0 (F2Q g) = (1 <=? raw)
  /\ (raw < 1693 -> (F2Q g <= 300 # 1)%Q)
  /\ F32.gtb g (F32.of_Z 300) = (1693 <=? raw)
  /\ F32.ltb g (F32.of_Z 180) = (raw <=? 1015)
  /\ F32.gtb g (F32.of_Z 250) = (1411 <=? raw)
  /\ F64.gtb (F64.of_f32 v) lit_0_1 = (125 <=? raw)
  /\ Qltb 0 (F2Q ml) = (125 <=? raw)
  /\ F64.geb (F64.of_f32 v) (F64.of_Z 3) = (3723 <=? raw)
  /\ F64.leb (F64.of_f32 v) lit_0_3 = (raw <=? 372)
  /\ (is_finite dl = true /\ (0 <= F2Q dl <= 50000 # 1)%Q)
  /\ (372 < raw < 3723 -> (0 < F2Q dl < 50000 # 1)%Q)
  /\ F32.eqb dl (F32.of_Z 0) = (3723 <=? raw)
  /\ F32.gtb dl (F32.of_Z 0) = (raw <? 3723).
Proof.
  intros H. cbv zeta.
  assert (B : sample_ok raw (converted raw) = true).
  { destruct samples_scanned as [B0 B1].
    destruct (Z.eq_dec raw 0) as [->|Hne]; [exact B0|].
    specialize (B1 raw ltac:(lia)). unfold sample_step_ok in B1.
    apply andb_true_iff in B1. apply B1. }
  unfold sample_ok in B. cbv zeta in B.
  cbn [converted cv_voltage cv_grid cv_mainLux cv_debugLux] in B.
  repeat match type of B with
         | _ && _ = true => apply andb_true_iff in B; destruct B as [B ?]
         end.
  repeat match goal with
         | E : Bool.eqb _ _ = true |- _ => apply Bool.eqb_prop in E
         end.
  repeat split; try assumption.
  - apply same_float_eq. assumption.
  - apply Qle_bool_iff. assumption.
  - intros L. apply Z.ltb_lt in L.
    match goal with
    | E : (if raw <? 1693 then _ else _) = true |- _ =>
        rewrite L in E; apply Qle_bool_iff; exact E
    end.
  - apply Qle_bool_iff. assumption.
  - apply Qle_bool_iff. assumption.
  - match goal with
    | E : (if (372 <? raw) && (raw <? 3723) then _ else _) = true |- _ =>
        replace ((372 <? raw) && (raw <? 3723)) with true in E
          by (symmetry; apply andb_true_iff; split; apply Z.ltb_lt; lia);
        apply andb_true_iff in E; apply Qltb_lt; apply E
    end.
  - match goal with
    | E : (if (372 <? raw) && (raw <? 3723) then _ else _) = true |- _ =>
        replace ((372 <? raw) && (raw <? 3723)) with true in E
          by (symmetry; apply andb_true_iff; split; apply Z.ltb_lt; lia);
        apply andb_true_iff in E; apply Qltb_lt; apply E
    end.
Qed.

(** What the scan tells of two samples in a row. *)
Lemma step_props (raw : Z) :
  1 <= raw <= 4095 ->
  (F2Q (adcVoltage (raw - 1)) < F2Q (adcVoltage raw))%Q
  /\ (F2Q (DebugLdr.luxOfVoltage (adcVoltage raw))
      <= F2Q (DebugLdr.luxOfVoltage (adcVoltage (raw - 1))))%Q
  /\ (126 <= raw ->
      (F2Q (fst (ldrChannel (adcVoltage raw)))
       < F2Q (fst (ldrChannel (adcVoltage (raw - 1)))))%Q).
Proof.
  intros H. destruct samples_scanned as [_ B1].
  specialize (B1 raw H). unfold sample_step_ok in B1.
  cbn [converted cv_voltage cv_grid cv_mainLux cv_debugLux] in B1.
  apply andb_true_iff in B1 as [B1 _].
  apply andb_true_iff in B1 as [B1 B3].
  apply andb_true_iff in B1 as [B1 B2].
  split; [apply Qltb_lt; exact B1|].
  split; [apply Qle_bool_iff; exact B2|].
  intros L. apply Z.leb_le in L. rewrite L in B3. apply Qltb_lt. exact B3.
Qed.

(** A property of consecutive samples that is transitive holds of any two
    samples in order. *)
Lemma chain (R : Z -> Z -> Prop) (lo hi : Z) :
  (forall a b c, R a b -> R b c -> R a c) ->
  (forall k, lo < k <= hi -> R (k - 1) k) ->
  forall i j, lo <= i < j -> j <= hi -> R i j.
Proof.
  intros T S i j Hij Hj.
  assert (G : forall n : nat, forall j, j = i + 1 + Z.of_nat n -> j <= hi -> R i j).
  { induction n as [|n IH]; intros j' E L.
    - replace i with (j' - 1) by lia. apply S. lia.
    - apply (T i (j' - 1) j').
      + apply IH; lia.
      + apply S. lia. }
  apply (G (Z.to_nat (j - i - 1))); lia.
Qed.

(** ** More on the main monitor *)

(** X1.  On the 12-bit range the voltage computed from a sample is finite,
    never negative, at most 3.3 V, and strictly increasing in the sample:
    no two samples give the same voltage. *)
Theorem adcVoltage_increasing (i j : Z) :
  0 <= i < j -> j <= 4095 ->
  is_finite (adcVoltage i) = true
  /\ is_finite (adcVoltage j) = true
  /\ (0 <= F2Q (adcVoltage i))%Q
  /\ (F2Q (adcVoltage i) < F2Q (adcVoltage j))%Q
  /\ (F2Q (adcVoltage j) <= 33 # 10)%Q.
Proof.
  intros Hij Hj.
  assert (M : forall a b, 0 <= a < b -> b <= 4095 ->
                          (F2Q (adcVoltage a) < F2Q (adcVoltage b))%Q).
  { apply (chain (fun a b => (F2Q (adcVoltage a) < F2Q (adcVoltage b))%Q) 0 4095).
    - intros a b c. apply Qlt_trans.
    - intros k Hk. apply step_props. lia. }
  assert (Z0' : F2Q (adcVoltage 0) == 0) by (vm_compute; reflexivity).
  assert (T : (F2Q (adcVoltage 4095) <= 33 # 10)%Q) by (vm_compute; discriminate).
  split; [apply (sample_props i); lia|].
  split; [apply (sample_props j); lia|].
  split.
  - destruct (Z.eq_dec i 0) as [->|N].
    + rewrite Z0'. apply Qle_refl.
    + apply Qlt_le_weak. rewrite <- Z0'. apply M; lia.
  - split; [apply M; lia|].
    destruct (Z.eq_dec j 4095) as [->|N]; [exact T|].
    apply Qlt_le_weak. apply (Qlt_le_trans _ (F2Q (adcVoltage 4095))); [|exact T].
    apply M; lia.
Qed.

Lemma adcVoltage_increasing_witness :
  (F2Q (adcVoltage 2047) < F2Q (adcVoltage 2048))%Q.
Proof.
  apply (adcVoltage_increasing 2047 2048); lia.
Defined.

Lemma ldrChannel_snd (v : float32) :
  snd (ldrChannel v)
  = F32.of_f64 (F64.div (F64.of_f32 (fst (ldrChannel v))) (F64.of_Z 120)).
Proof. reflexivity. Qed.

Lemma ldrChannel_clamped (v : float32) :
  F32.ltb (fst (ldrChannel v)) (F32.of_Z 0) = false
  /\ F32.gtb (fst (ldrChannel v)) (F32.of_Z 50000) = false.
Proof.
  unfold ldrChannel. cbv zeta. cbn [fst].
  destruct (F64.gtb (F64.of_f32 v) lit_0_1); [|split; vm_compute; reflexivity].
  destruct (F32.ltb (ldrFormula v) (F32.of_Z 0)) eqn:L.
  - replace (F32.gtb (F32.of_Z 0) (F32.of_Z 50000)) with false
      by (vm_compute; reflexivity).
    split; vm_compute; reflexivity.
  - destruct (F32.gtb (ldrFormula v) (F32.of_Z 50000)) eqn:G.
    + split; vm_compute; reflexivity.
    + split; assumption.
Qed.

(** X2.  Whatever the sensors deliver, a cycle leaves a record within the
    limits of the code: the lux is neither below 0 nor above 50000, the
    irradiance is the lux divided by 120, the grid voltage is not above
    300, the current not above 50, the power not above 10000, and a power
    that is not 0 is not below 0.1. *)
Theorem record_within_ceilings (hw : RawInputs) (d : SensorData) :
  let r := cycle hw d in
  F32.ltb (lightIntensity r) (F32.of_Z 0) = false
  /\ F32.gtb (lightIntensity r) (F32.of_Z 50000) = false
  /\ irradiance r
     = F32.of_f64 (F64.div (F64.of_f32 (lightIntensity r)) (F64.of_Z 120))
  /\ F32.gtb (gridVoltage r) (F32.of_Z 300) = false
  /\ F32.gtb (loadCurrent r) (F32.of_Z 50) = false
  /\ F32.gtb (activePower r) (F32.of_Z 10000) = false
  /\ (activePower r = F32.of_Z 0
      \/ F64.ltb (F64.of_f32 (activePower r)) lit_0_1 = false).
Proof.
  cbv zeta.
  destruct (cycle_light_channel hw d) as [-> ->].
  destruct (ldrChannel_clamped (adcVoltage (ldrRaw hw))) as [L G].
  split; [exact L|]. split; [exact G|].
  split; [apply ldrChannel_snd|].
  destruct (cycle_fields hw d) as (_ & _ & _ & _ & _ & _ & _ & _ & -> & ->).
  split.
  { destruct (F32.gtb (zmptVoltage _) _) eqn:E; [vm_compute; reflexivity|exact E]. }
  split.
  { destruct (F32.gtb (acsCurrent _) _) eqn:E; [vm_compute; reflexivity|exact E]. }
  rewrite cycle_unfold.
  destruct (calculateElectricalParameters_spec (exec (readAllSensors hw) d))
    as (_ & _ & _ & _ & _ & _ & ->).
  set (p := F32.mul _ (F32.of_f64 lit_0_9)).
  destruct (F32.gtb p (F32.of_Z 10000)) eqn:E1.
  { split; [vm_compute; reflexivity|left; reflexivity]. }
  destruct (F64.ltb (F64.of_f32 p) lit_0_1) eqn:E2.
  { split; [vm_compute; reflexivity|left; reflexivity]. }
  split; [exact E1|right; exact E2].
Qed.

(** X3.  For a 12-bit voltage sample the stored grid voltage is finite and
    between 0 and 300; it is 0 exactly for the sample 0 and for the samples
    from 1693 on, where the conversion exceeds 300 and is discarded. *)
Theorem gridVoltage_of_sample (hw : RawInputs) (d : SensorData) :
  0 <= voltageRaw hw <= 4095 ->
  let r := cycle hw d in
  is_finite (gridVoltage r) = true
  /\ (0 <= F2Q (gridVoltage r) <= 300 # 1)%Q
  /\ (gridVoltage r = F32.of_Z 0 <-> voltageRaw hw = 0 \/ 1693 <= voltageRaw hw).
Proof.
  intros H. cbv zeta.
  destruct (cycle_fields hw d) as (_ & _ & _ & _ & _ & _ & _ & _ & -> & _).
  destruct (sample_props (voltageRaw hw) H)
    as (_ & _ & (Fg & Pg) & Zg & Ug & Tg & _).
  rewrite Tg.
  destruct (1693 <=? voltageRaw hw) eqn:E.
  - apply Z.leb_le in E.
    split; [reflexivity|]. split; [split; vm_compute; discriminate|].
    split; [intros _; right; exact E|reflexivity].
  - apply Z.leb_gt in E.
    split; [exact Fg|]. split; [split; [exact Pg|apply Ug; exact E]|].
    split.
    + intros G. rewrite G in Zg.
      destruct (1 <=? voltageRaw hw) eqn:E1.
      * vm_compute in Zg. discriminate Zg.
      * apply Z.leb_gt in E1. left. lia.
    + intros [->|L]; [vm_compute; reflexivity|lia].
Qed.

Lemma gridVoltage_of_sample_witness :
  gridVoltage (cycle (mkRawInputs (F32.of_Z 25) (F32.of_Z 60) 1000 1693 2048) blank)
  = F32.of_Z 0.
Proof.
  apply (gridVoltage_of_sample
           (mkRawInputs (F32.of_Z 25) (F32.of_Z 60) 1000 1693 2048) blank).
  - simpl. lia.
  - right. simpl. lia.
Defined.

Lemma status_fault_iff (d : SensorData) :
  getSystemStatus d = "GRID FAULT"%string
  <-> F32.ltb (gridVoltage d) (F32.of_Z 180)
      || F32.gtb (gridVoltage d) (F32.of_Z 250) = true.
Proof.
  unfold getSystemStatus.
  destruct (F32.ltb (gridVoltage d) (F32.of_Z 180)
            || F32.gtb (gridVoltage d) (F32.of_Z 250)).
  - split; reflexivity.
  - destruct (F32.gtb (activePower d) (F32.of_Z 5000));
      [split; discriminate|].
    destruct (F32.gtb (activePower d) (F32.of_Z 1000));
      [split; discriminate|].
    destruct (F32.gtb (activePower d) (F32.of_Z 100)); split; discriminate.
Qed.

(** X4.  A conversion above 300 V is stored as 0 and so reported as
    "GRID FAULT"; over the 12-bit range the status after a cycle is
    "GRID FAULT" exactly when the voltage sample is at most 1015 or at
    least 1411. *)
Theorem grid_fault_window :
  (forall (hw : RawInputs) (d : SensorData),
      F32.gtb (zmptVoltage (adcVoltage (voltageRaw hw))) (F32.of_Z 300) = true ->
      getSystemStatus (cycle hw d) = "GRID FAULT"%string)
  /\ (forall (hw : RawInputs) (d : SensorData),
        0 <= voltageRaw hw <= 4095 ->
        (getSystemStatus (cycle hw d) = "GRID FAULT"%string
         <-> voltageRaw hw <= 1015 \/ 1411 <= voltageRaw hw)).
Proof.
  split.
  - intros hw d H. apply status_fault_iff.
    destruct (cycle_fields hw d) as (_ & _ & _ & _ & _ & _ & _ & _ & -> & _).
    rewrite H. vm_compute. reflexivity.
  - intros hw d H. rewrite status_fault_iff.
    destruct (cycle_fields hw d) as (_ & _ & _ & _ & _ & _ & _ & _ & -> & _).
    destruct (sample_props (voltageRaw hw) H)
      as (_ & _ & _ & _ & _ & T300 & T180 & T250 & _).
    rewrite T300.
    destruct (1693 <=? voltageRaw hw) eqn:E.
    + apply Z.leb_le in E. split; [intros _; right; lia|intros _; vm_compute; reflexivity].
    + rewrite T180, T250. rewrite orb_true_iff, Z.leb_le, Z.leb_le. reflexivity.
Qed.

Lemma grid_fault_window_witness :
  getSystemStatus
    (cycle (mkRawInputs (F32.of_Z 25) (F32.of_Z 60) 1000 1411 2048) blank)
  = "GRID FAULT"%string
  /\ getSystemStatus
       (cycle (mkRawInputs (F32.of_Z 25) (F32.of_Z 60) 1000 2048 2048) blank)
     = "GRID FAULT"%string.
Proof.
  split.
  - apply (proj2 grid_fault_window
             (mkRawInputs (F32.of_Z 25) (F32.of_Z 60) 1000 1411 2048) blank).
    + simpl. lia.
    + right. simpl. lia.
  - apply (proj1 grid_fault_window
             (mkRawInputs (F32.of_Z 25) (F32.of_Z 60) 1000 2048 2048) blank).
    vm_compute. reflexivity.
Defined.

(** X5.  In the main monitor the lux of a 12-bit sample is 0 exactly up to
    sample 124; from 125 on it falls strictly as the sample rises, from at
    most 12450909/512 (about 24318) and staying above 257. *)
Theorem main_lux_of_sample :
  (forall (hw : RawInputs) (d : SensorData),
      0 <= ldrRaw hw <= 4095 ->
      (lightIntensity (cycle hw d) = F32.of_Z 0 <-> ldrRaw hw <= 124))
  /\ (forall (hw hw' : RawInputs) (d d' : SensorData),
        125 <= ldrRaw hw < ldrRaw hw' -> ldrRaw hw' <= 4095 ->
        (257 # 1 < F2Q (lightIntensity (cycle hw' d')))%Q
        /\ (F2Q (lightIntensity (cycle hw' d')) < F2Q (lightIntensity (cycle hw d)))%Q
        /\ (F2Q (lightIntensity (cycle hw d)) <= 12450909 # 512)%Q).
Proof.
  split.
  - intros hw d H.
    destruct (sample_props (ldrRaw hw) H)
      as (_ & _ & _ & _ & _ & _ & _ & _ & G & P & _).
    destruct (125 <=? ldrRaw hw) eqn:E.
    + apply Z.leb_le in E. split; [|lia].
      intros Z0'. destruct (cycle_light_channel hw d) as [L _].
      rewrite L in Z0'. rewrite Z0' in P. vm_compute in P. discriminate P.
    + apply Z.leb_gt in E. split; [lia|]. intros _.
      apply (cycle_light_low hw d G).
  - intros hw hw' d d' H H'.
    destruct (cycle_light_channel hw d) as [-> _].
    destruct (cycle_light_channel hw' d') as [-> _].
    set (ml := fun raw => F2Q (fst (ldrChannel (adcVoltage raw)))).
    change (257 # 1 < ml (ldrRaw hw') /\ ml (ldrRaw hw') < ml (ldrRaw hw)
            /\ ml (ldrRaw hw) <= 12450909 # 512)%Q.
    assert (M : forall a b, 125 <= a < b -> b <= 4095 -> (ml b < ml a)%Q).
    { apply (chain (fun a b => (ml b < ml a)%Q) 125 4095).
      - intros a b c Hab Hbc. apply (Qlt_trans _ (ml b)); assumption.
      - intros k Hk. apply step_props; lia. }
    assert (Top : (ml 125%Z <= 12450909 # 512)%Q) by (vm_compute; discriminate).
    assert (Bot : (257 # 1 < ml 4095%Z)%Q) by (vm_compute; reflexivity).
    split; [|split].
    + destruct (Z.eq_dec (ldrRaw hw') 4095) as [->|N]; [exact Bot|].
      apply (Qlt_trans _ (ml 4095%Z)); [exact Bot|]. apply M; lia.
    + apply M; lia.
    + destruct (Z.eq_dec (ldrRaw hw) 125) as [->|N]; [exact Top|].
      apply Qlt_le_weak. apply (Qlt_le_trans _ (ml 125%Z)); [|exact Top].
      apply M; lia.
Qed.

Lemma main_lux_of_sample_witness :
  lightIntensity (cycle (mkRawInputs (F32.of_Z 25) (F32.of_Z 60) 124 1000 2048) blank)
  = F32.of_Z 0
  /\ (F2Q (lightIntensity
             (cycle (mkRawInputs (F32.of_Z 25) (F32.of_Z 60) 126 1000 2048) blank))
      < F2Q (lightIntensity
               (cycle (mkRawInputs (F32.of_Z 25) (F32.of_Z 60) 125 1000 2048) blank)))%Q.
Proof.
  split.
  - apply (proj1 main_lux_of_sample
             (mkRawInputs (F32.of_Z 25) (F32.of_Z 60) 124 1000 2048) blank);
      simpl; lia.
  - apply (proj2 main_lux_of_sample
             (mkRawInputs (F32.of_Z 25) (F32.of_Z 60) 125 1000 2048)
             (mkRawInputs (F32.of_Z 25) (F32.of_Z 60) 126 1000 2048) blank blank);
      simpl; lia.
Defined.

(** *** The frame of the main monitor *)

Ltac in_frame := cbn [app In]; repeat (first [left; reflexivity | right]).

Ltac not_in_frame :=
  cbn [app In]; intros N;
  repeat match type of N with
         | _ \/ _ => destruct N as [N|N]; [discriminate N|]
         end;
  exact N.

(** X6.  The frame of a pass of [loop] shows "ERROR" for both temperature
    and humidity, and no number for either, as soon as one of the two DHT
    readings is NaN; otherwise it shows both readings and no "ERROR". *)
Theorem frame_dht_error (hw : RawInputs) (d : SensorData) :
  let frame := snd (loop hw d) in
  (isnan (dhtTemperature hw) || isnan (dhtHumidity hw) = true ->
   In (DrawStr 12 27 (Str "ERROR")) frame
   /\ In (DrawStr 15 35 (Str "ERROR")) frame
   /\ (forall v w p, ~ In (DrawStr 12 27 (Dtostrf v w p)) frame)
   /\ (forall v w p, ~ In (DrawStr 15 35 (Dtostrf v w p)) frame))
  /\ (isnan (dhtTemperature hw) || isnan (dhtHumidity hw) = false ->
      In (DrawStr 12 27 (Dtostrf (dhtTemperature hw) 4 1)) frame
      /\ In (DrawStr 15 35 (Dtostrf (dhtHumidity hw) 4 1)) frame
      /\ ~ In (DrawStr 12 27 (Str "ERROR")) frame
      /\ ~ In (DrawStr 15 35 (Str "ERROR")) frame).
Proof.
  cbv zeta. unfold loop. cbn [snd].
  unfold updateDisplay, showCompleteMonitoring.
  destruct (cycle_fields hw d) as (-> & -> & -> & _).
  split; intros E; rewrite E.
  - split; [in_frame|]. split; [in_frame|].
    split; intros v w p;
      destruct (F32.ltb (activePower (cycle hw d)) (F32.of_Z 1000)); not_in_frame.
  - split; [in_frame|]. split; [in_frame|].
    split;
      destruct (F32.ltb (activePower (cycle hw d)) (F32.of_Z 1000)); not_in_frame.
Qed.

Lemma frame_dht_error_witness :
  In (DrawStr 12 27 (Str "ERROR"))
     (snd (loop (mkRawInputs (F32.of_Z 25) S754_nan 1000 1000 2048) blank))
  /\ In (DrawStr 15 35 (Dtostrf (F32.of_Z 60) 4 1))
        (snd (loop (mkRawInputs (F32.of_Z 25) (F32.of_Z 60) 1000 1000 2048) blank)).
Proof.
  split.
  - apply (proj1 (frame_dht_error
                    (mkRawInputs (F32.of_Z 25) S754_nan 1000 1000 2048) blank)).
    reflexivity.
  - apply (proj2 (frame_dht_error
                    (mkRawInputs (F32.of_Z 25) (F32.of_Z 60) 1000 1000 2048) blank)).
    reflexivity.
Defined.

Lemma SFltb_asym (x y : spec_float) : SFltb x y = true -> SFltb y x = false.
Proof.
  unfold SFltb.
  destruct (SFcompare x y) as [c|] eqn:E; [|discriminate].
  rewrite (SFcompare_antisym _ _ _ E).
  destruct c; simpl; congruence.
Qed.

(** A power above 5000 is not below 1000. *)
Lemma above_5000_not_below_1000 (p : float32) :
  F32.gtb p (F32.of_Z 5000) = true -> F32.ltb p (F32.of_Z 1000) = false.
Proof.
  unfold F32.gtb, F32.ltb, SFltb.
  replace (F32.of_Z 5000) with (S754_finite false 10240000 (-11))
    by (vm_compute; reflexivity).
  replace (F32.of_Z 1000) with (S754_finite false 16384000 (-14))
    by (vm_compute; reflexivity).
  destruct p as [s|s| |s m e]; cbn [SFcompare]; try discriminate.
  - destruct s; [discriminate|reflexivity].
  - destruct s; [discriminate|].
    destruct (Z.compare_spec (-11) e) as [<-|L|L].
    + intros _. reflexivity.
    + intros _. replace (e ?= -14) with Gt; [reflexivity|].
      symmetry. apply Z.compare_gt_iff. lia.
    + discriminate.
Qed.

(** The labels "HIGH LOAD" and "NORMAL" come with a power above 1000. *)
Lemma status_load_inv (data : SensorData) :
  getSystemStatus data = "HIGH LOAD"%string
  \/ getSystemStatus data = "NORMAL"%string ->
  F32.ltb (activePower data) (F32.of_Z 1000) = false.
Proof.
  unfold getSystemStatus.
  destruct (F32.ltb (gridVoltage data) (F32.of_Z 180)
            || F32.gtb (gridVoltage data) (F32.of_Z 250)).
  { intros [H|H]; discriminate H. }
  destruct (F32.gtb (activePower data) (F32.of_Z 5000)) eqn:E5.
  { intros _. apply above_5000_not_below_1000. exact E5. }
  destruct (F32.gtb (activePower data) (F32.of_Z 1000)) eqn:E1.
  { intros _. apply SFltb_asym. exact E1. }
  destruct (F32.gtb (activePower data) (F32.of_Z 100));
    intros [H|H]; discriminate H.
Qed.

(** X7.  Whenever the status bar reads "HIGH LOAD" or "NORMAL" the power is
    drawn in kilowatts: the frame holds the power divided by 1000 with the
    unit "kW", and not the unit "W". *)
Theorem frame_power_unit (data : SensorData) :
  getSystemStatus data = "HIGH LOAD"%string
  \/ getSystemStatus data = "NORMAL"%string ->
  let frame := updateDisplay data in
  In (DrawStr 2 63 (Str (getSystemStatus data))) frame
  /\ In (DrawStr 75 43 (Dtostrf (F32.div (activePower data) (F32.of_Z 1000)) 3 2)) frame
  /\ In (DrawStr 110 43 (Str "kW")) frame
  /\ ~ In (DrawStr 110 43 (Str "W")) frame.
Proof.
  intros H. cbv zeta.
  pose proof (status_load_inv data H) as L.
  unfold updateDisplay, showCompleteMonitoring. rewrite L.
  destruct (dhtError data).
  - split; [in_frame|]. split; [in_frame|]. split; [in_frame|not_in_frame].
  - split; [in_frame|]. split; [in_frame|]. split; [in_frame|not_in_frame].
Qed.

Lemma frame_power_unit_witness :
  In (DrawStr 110 43 (Str "kW"))
     (updateDisplay
        (set_activePower (F32.of_Z 2000) (set_gridVoltage (F32.of_Z 220) blank))).
Proof.
  apply (frame_power_unit
           (set_activePower (F32.of_Z 2000) (set_gridVoltage (F32.of_Z 220) blank))).
  right. vm_compute. reflexivity.
Defined.

(** ** More on the diagnostic monitor *)

(** [readLDRSensor] in one step: the state it leaves, written out. *)
Lemma readLDRSensor_run (analogRead : nat -> Z) (millis : Z) (st : DebugLdr.Sketch) :
  let t := DebugLdr.tally analogRead (DebugLdr.reads st) 5 0 0 in
  let adc := if snd t =? 0 then DebugLdr.adcValue st else Z.quot (fst t) (snd t) in
  let v := DebugLdr.voltageOfAdc adc in
  let lux := DebugLdr.atLeastOneLux v (DebugLdr.luxOfVoltage v) in
  DebugLdr.readLDRSensor analogRead millis st
  = Some (tt,
          DebugLdr.mkSketch adc v lux
            (F32.of_f64 (F64.div (F64.of_f32 lux) (F64.of_Z 120)))
            millis
            (DebugLdr.wrap_int (DebugLdr.readingCount st + 1))
            (5 + DebugLdr.reads st)
            (DebugLdr.serial st
             ++ (if snd t =? 0
                 then [DebugLdr.SerialPrintln
                         (DebugLdr.SStr "WARNING: No valid readings! Using previous value.")]
                 else [])
             ++ (if 4000 <? adc
                 then [DebugLdr.SerialPrint (DebugLdr.SStr "HIGH ADC WARNING: ");
                       DebugLdr.SerialPrint (DebugLdr.SInt adc);
                       DebugLdr.SerialPrint (DebugLdr.SStr " -> V: ");
                       DebugLdr.SerialPrint (DebugLdr.SFloat v 3);
                       DebugLdr.SerialPrint (DebugLdr.SStr " -> Lux: ");
                       DebugLdr.SerialPrintln (DebugLdr.SFloat lux 2);
                       DebugLdr.SerialPrintln
                         (DebugLdr.SStr "Try increasing light or check sensor connection")]
                 else []))).
Proof.
  cbv zeta.
  unfold DebugLdr.readLDRSensor.
  do 3 (unfold DebugLdr.bind at 1;
        cbn [DebugLdr.set_timestamp DebugLdr.set_readingCount DebugLdr.modify DebugLdr.get]).
  unfold DebugLdr.bind at 1. rewrite sampleLoop_run.
  destruct (DebugLdr.tally analogRead _ 5 0 0) as [adcSum validReadings].
  cbn [fst snd].
  destruct st as [a v l i t c r s].
  unfold DebugLdr.atLeastOneLux, DebugLdr.luxOfVoltage.
  run_sketch.
  all: cbv zeta; rewrite <- ?app_assoc; cbn [app]; rewrite ?app_nil_r.
  all: reflexivity.
Qed.

(** [calibrateLDR] in one step. *)
Lemma calibrateLDR_run (analogRead : nat -> Z) (st : DebugLdr.Sketch) :
  let t := DebugLdr.tally analogRead (50 + DebugLdr.reads st) 20 0 0 in
  let adc := if snd t =? 0 then 2048 else Z.quot (fst t) (snd t) in
  let v := DebugLdr.voltageOfAdc adc in
  let lux := DebugLdr.luxOfVoltage v in
  DebugLdr.calibrateLDR analogRead st
  = Some (tt,
          DebugLdr.mkSketch adc v lux
            (F32.of_f64 (F64.div (F64.of_f32 lux) (F64.of_Z 120)))
            (DebugLdr.timestamp st)
            (DebugLdr.readingCount st)
            (20 + (50 + DebugLdr.reads st))
            (DebugLdr.serial st
             ++ (if snd t =? 0
                 then [DebugLdr.SerialPrintln
                         (DebugLdr.SStr "WARNING: No valid readings during calibration!");
                       DebugLdr.SerialPrintln
                         (DebugLdr.SStr "Check LDR connection and lighting conditions")]
                 else [DebugLdr.SerialPrint
                         (DebugLdr.SStr "Calibration complete. Average ADC: ");
                       DebugLdr.SerialPrintln (DebugLdr.SInt adc)])
             ++ (if F64.geb (F64.of_f32 v) (F64.of_Z 3)
                 then [DebugLdr.SerialPrintln
                         (DebugLdr.SStr "Calibration: DARK condition detected")]
                 else if F64.leb (F64.of_f32 v) lit_0_3
                 then [DebugLdr.SerialPrintln
                         (DebugLdr.SStr "Calibration: BRIGHT condition detected")]
                 else [DebugLdr.SerialPrint
                         (DebugLdr.SStr "Calibration: NORMAL condition. Lux: ");
                       DebugLdr.SerialPrintln (DebugLdr.SFloat lux 2)]))).
Proof.
  cbv zeta.
  unfold DebugLdr.calibrateLDR.
  unfold DebugLdr.bind at 1. rewrite stabilise_run.
  unfold DebugLdr.bind at 1. rewrite sampleLoop_run.
  replace (DebugLdr.reads (DebugLdr.advance 50 st)) with (50 + DebugLdr.reads st)%nat
    by (destruct st; reflexivity).
  destruct (DebugLdr.tally analogRead _ 20 0 0) as [adcSum validReadings].
  cbn [fst snd].
  destruct st as [a v l i t c r s].
  unfold DebugLdr.luxOfVoltage.
  run_sketch.
  all: cbv zeta; rewrite <- ?app_assoc; cbn [app]; rewrite ?app_nil_r.
  all: reflexivity.
Qed.

(** The mean of the counted reads is itself strictly between 10 and 4085. *)
Lemma mean_in_range (analogRead : nat -> Z) (start n : nat) :
  let t := DebugLdr.tally analogRead start n 0 0 in
  snd t <> 0 -> 11 <= Z.quot (fst t) (snd t) <= 4084.
Proof.
  cbv zeta. intros N.
  destruct (tally_bounds analogRead n start 0 0) as [[C0 _] [S1 S2]].
  set (s := fst (DebugLdr.tally analogRead start n 0 0)) in *.
  set (c := snd (DebugLdr.tally analogRead start n 0 0)) in *.
  assert (Hc : 0 < c) by lia.
  rewrite Z.quot_div_nonneg by lia.
  split.
  - apply Z.div_le_lower_bound; lia.
  - apply Z.lt_succ_r. apply Z.div_lt_upper_bound; lia.
Qed.

(** Reads that all give the same value [r], strictly between 10 and 4085,
    are all counted. *)
Lemma tally_steady (analogRead : nat -> Z) (r : Z) (n start : nat) (adcSum validReadings : Z) :
  10 < r < 4085 ->
  (forall k, (start <= k < start + n)%nat -> analogRead k = r) ->
  DebugLdr.tally analogRead start n adcSum validReadings
  = (adcSum + Z.of_nat n * r, validReadings + Z.of_nat n).
Proof.
  intros Hr. revert start adcSum validReadings.
  induction n as [|m IH]; intros start adcSum validReadings H.
  - cbn [DebugLdr.tally]. f_equal; lia.
  - cbn [DebugLdr.tally]. rewrite (H start) by lia.
    replace ((10 <? r) && (r <? 4085)) with true
      by (symmetry; apply andb_true_iff; split; apply Z.ltb_lt; lia).
    rewrite IH by (intros k Hk; apply H; lia).
    f_equal; lia.
Qed.

Ltac run_report_step :=
  cbv beta iota zeta delta
    [DebugLdr.emitted DebugLdr.printDataToSerial DebugLdr.manualCalibrationCheck
     DebugLdr.bind DebugLdr.ret DebugLdr.get DebugLdr.modify DebugLdr.when
     DebugLdr.emit
     DebugLdr.adcValue DebugLdr.voltage DebugLdr.lightIntensity
     DebugLdr.irradiance DebugLdr.timestamp DebugLdr.readingCount
     DebugLdr.reads DebugLdr.serial].

Ltac run_report := run_report_step; repeat (decide_next; run_report_step).

(** [printDataToSerial] changes no global and appends what it prints. *)
Lemma printDataToSerial_run (st : DebugLdr.Sketch) :
  DebugLdr.printDataToSerial st
  = Some (tt,
          DebugLdr.mkSketch (DebugLdr.adcValue st) (DebugLdr.voltage st)
            (DebugLdr.lightIntensity st) (DebugLdr.irradiance st)
            (DebugLdr.timestamp st) (DebugLdr.readingCount st) (DebugLdr.reads st)
            (DebugLdr.serial st ++ DebugLdr.emitted DebugLdr.printDataToSerial st)).
Proof.
  destruct st as [a v l i t c r s].
  run_report.
  all: rewrite <- ?app_assoc; cbn [app]; reflexivity.
Qed.

(** So does [manualCalibrationCheck]. *)
Lemma manualCalibrationCheck_run (st : DebugLdr.Sketch) :
  exists frame,
    DebugLdr.manualCalibrationCheck st
    = Some (frame,
            DebugLdr.mkSketch (DebugLdr.adcValue st) (DebugLdr.voltage st)
              (DebugLdr.lightIntensity st) (DebugLdr.irradiance st)
              (DebugLdr.timestamp st) (DebugLdr.readingCount st) (DebugLdr.reads st)
              (DebugLdr.serial st ++ DebugLdr.emitted DebugLdr.manualCalibrationCheck st))
    /\ (frame = [] <-> DebugLdr.adcValue st <= 4000).
Proof.
  destruct st as [a v l i t c r s].
  run_report.
  all: eexists; (split; [rewrite <- ?app_assoc; cbn [app]; reflexivity|]).
  all: repeat match goal with
              | E : (_ <? _) = true |- _ => apply Z.ltb_lt in E
              | E : (_ <? _) = false |- _ => apply Z.ltb_ge in E
              end.
  all: split; intros; try reflexivity; try discriminate; lia.
Qed.

(** One pass of [loop]. *)
Lemma loop_run (analogRead : nat -> Z) (millis : Z) (st : DebugLdr.Sketch) :
  exists st1,
    DebugLdr.readLDRSensor analogRead millis st = Some (tt, st1)
    /\ DebugLdr.loop analogRead millis st
       = Some (DebugLdr.updateDisplay st1,
               DebugLdr.mkSketch (DebugLdr.adcValue st1) (DebugLdr.voltage st1)
                 (DebugLdr.lightIntensity st1) (DebugLdr.irradiance st1)
                 (DebugLdr.timestamp st1) (DebugLdr.readingCount st1)
                 (DebugLdr.reads st1)
                 (DebugLdr.serial st1
                  ++ DebugLdr.emitted DebugLdr.printDataToSerial st1)).
Proof.
  pose proof (readLDRSensor_run analogRead millis st) as R. cbv zeta in R.
  eexists. split; [exact R|].
  unfold DebugLdr.loop.
  unfold DebugLdr.bind at 1. rewrite R.
  unfold DebugLdr.bind at 1. unfold DebugLdr.get at 1.
  unfold DebugLdr.bind at 1. rewrite printDataToSerial_run.
  reflexivity.
Qed.

(** The two sketches turn a sample into the same voltage. *)
Lemma voltageOfAdc_adcVoltage (adc : Z) :
  0 <= adc <= 4095 -> DebugLdr.voltageOfAdc adc = adcVoltage adc.
Proof.
  intros H. destruct (sample_props adc H) as (E & _).
  unfold DebugLdr.voltageOfAdc, adcVoltage. rewrite E. reflexivity.
Qed.

(** The conversion of the diagnostic monitor on the samples of the
    converter. *)
Lemma debug_lux_facts (adc : Z) :
  0 <= adc <= 4095 ->
  let v := DebugLdr.voltageOfAdc adc in
  let lux := DebugLdr.luxOfVoltage v in
  DebugLdr.atLeastOneLux v lux = lux
  /\ is_finite lux = true
  /\ (adc <= 372 -> lux = F32.of_Z 50000)
  /\ (3723 <= adc -> lux = F32.of_Z 0)
  /\ (372 < adc < 3723 ->
      lux = DebugLdr.linearMap v /\ (0 < F2Q lux < 50000 # 1)%Q)
  /\ F32.eqb lux (F32.of_Z 0) = (3723 <=? adc)
  /\ F32.gtb lux (F32.of_Z 0) = (adc <? 3723)
  /\ F64.geb (F64.of_f32 v) (F64.of_Z 3) = (3723 <=? adc)
  /\ F64.leb (F64.of_f32 v) lit_0_3 = (adc <=? 372).
Proof.
  intros H. cbv zeta. rewrite (voltageOfAdc_adcVoltage adc H).
  destruct (sample_props adc H)
    as (_ & _ & _ & _ & _ & _ & _ & _ & _ & _ & Dk & Br & (Fin & _) & Mid & Ez & Gz).
  set (v := adcVoltage adc) in *.
  assert (Fix : DebugLdr.atLeastOneLux v (DebugLdr.luxOfVoltage v)
                = DebugLdr.luxOfVoltage v).
  { unfold DebugLdr.atLeastOneLux. rewrite Ez.
    destruct (3723 <=? adc) eqn:E; [|reflexivity].
    assert (L : F64.ltb (F64.of_f32 v) (F64.of_Z 3) = false)
      by (apply SFleb_not_gt; exact Dk).
    rewrite L. reflexivity. }
  split; [exact Fix|]. split; [exact Fin|].
  split; [|split; [|split]].
  - intros L. unfold DebugLdr.luxOfVoltage. rewrite Dk, Br.
    replace (3723 <=? adc) with false by (symmetry; apply Z.leb_gt; lia).
    replace (adc <=? 372) with true by (symmetry; apply Z.leb_le; lia).
    reflexivity.
  - intros L. unfold DebugLdr.luxOfVoltage. rewrite Dk.
    replace (3723 <=? adc) with true by (symmetry; apply Z.leb_le; lia).
    reflexivity.
  - intros L. specialize (Mid L). split; [|exact Mid].
    revert Mid. unfold DebugLdr.luxOfVoltage. rewrite Dk, Br.
    replace (3723 <=? adc) with false by (symmetry; apply Z.leb_gt; lia).
    replace (adc <=? 372) with false by (symmetry; apply Z.leb_gt; lia).
    cbv zeta.
    destruct (F32.ltb (DebugLdr.linearMap v) (F32.of_Z 0)).
    { replace (F32.gtb (F32.of_Z 0) (F32.of_Z 50000)) with false
        by (vm_compute; reflexivity).
      intros [P _]. vm_compute in P. discriminate P. }
    destruct (F32.gtb (DebugLdr.linearMap v) (F32.of_Z 50000)).
    { intros [_ P]. vm_compute in P. discriminate P. }
    reflexivity.
  - split; [exact Ez|]. split; [exact Gz|]. split; [exact Dk|exact Br].
Qed.


(** X8.  On the 12-bit range the diagnostic sketch, which casts the sample
    to [float] before multiplying, computes the same voltage as the main
    monitor, which multiplies the integer sample. *)
Theorem sketches_agree_on_voltage (raw : Z) :
  0 <= raw <= 4095 ->
  DebugLdr.voltageOfAdc raw = adcVoltage raw.
Proof. exact (voltageOfAdc_adcVoltage raw). Qed.

Lemma sketches_agree_on_voltage_witness :
  DebugLdr.voltageOfAdc 2048 = adcVoltage 2048.
Proof. apply (sketches_agree_on_voltage 2048). lia. Defined.

(** What [readLDRSensor] leaves, field by field. *)
Lemma readLDRSensor_result (analogRead : nat -> Z) (millis : Z) (st : DebugLdr.Sketch) :
  exists st',
    DebugLdr.readLDRSensor analogRead millis st = Some (tt, st')
    /\ (DebugLdr.adcValue st' = DebugLdr.adcValue st
        \/ 11 <= DebugLdr.adcValue st' <= 4084)
    /\ DebugLdr.voltage st' = DebugLdr.voltageOfAdc (DebugLdr.adcValue st')
    /\ DebugLdr.lightIntensity st'
       = DebugLdr.atLeastOneLux (DebugLdr.voltage st')
           (DebugLdr.luxOfVoltage (DebugLdr.voltage st'))
    /\ DebugLdr.irradiance st'
       = F32.of_f64 (F64.div (F64.of_f32 (DebugLdr.lightIntensity st')) (F64.of_Z 120))
    /\ DebugLdr.timestamp st' = millis
    /\ DebugLdr.reads st' = (5 + DebugLdr.reads st)%nat.
Proof.
  pose proof (readLDRSensor_run analogRead millis st) as R. cbv zeta in R.
  eexists. split; [exact R|].
  cbn [DebugLdr.adcValue DebugLdr.voltage DebugLdr.lightIntensity DebugLdr.irradiance
       DebugLdr.timestamp DebugLdr.reads].
  split; [|repeat split].
  destruct (snd (DebugLdr.tally analogRead (DebugLdr.reads st) 5 0 0) =? 0) eqn:E;
    [left; reflexivity|right].
  apply mean_in_range. apply Z.eqb_neq. exact E.
Qed.

(** What [calibrateLDR] leaves, field by field. *)
Lemma calibrateLDR_result (analogRead : nat -> Z) (st : DebugLdr.Sketch) :
  exists st',
    DebugLdr.calibrateLDR analogRead st = Some (tt, st')
    /\ 11 <= DebugLdr.adcValue st' <= 4084
    /\ DebugLdr.voltage st' = DebugLdr.voltageOfAdc (DebugLdr.adcValue st')
    /\ DebugLdr.lightIntensity st' = DebugLdr.luxOfVoltage (DebugLdr.voltage st')
    /\ DebugLdr.irradiance st'
       = F32.of_f64 (F64.div (F64.of_f32 (DebugLdr.lightIntensity st')) (F64.of_Z 120)).
Proof.
  pose proof (calibrateLDR_run analogRead st) as R. cbv zeta in R.
  eexists. split; [exact R|].
  cbn [DebugLdr.adcValue DebugLdr.voltage DebugLdr.lightIntensity DebugLdr.irradiance].
  split; [|repeat split].
  destruct (snd (DebugLdr.tally analogRead (50 + DebugLdr.reads st) 20 0 0) =? 0) eqn:E;
    [lia|].
  apply mean_in_range. apply Z.eqb_neq. exact E.
Qed.

(** X9.  When none of its five reads is strictly between 10 and 4085,
    [readLDRSensor] keeps the previous [adcValue], recomputes the voltage
    from it, and the first thing it prints is the warning "No valid
    readings". *)
Theorem readLDRSensor_keeps_last_value
        (analogRead : nat -> Z) (millis : Z) (st : DebugLdr.Sketch) :
  (forall k, (DebugLdr.reads st <= k < DebugLdr.reads st + 5)%nat ->
             analogRead k <= 10 \/ 4085 <= analogRead k) ->
  exists st' rest,
    DebugLdr.readLDRSensor analogRead millis st = Some (tt, st')
    /\ DebugLdr.adcValue st' = DebugLdr.adcValue st
    /\ DebugLdr.voltage st' = DebugLdr.voltageOfAdc (DebugLdr.adcValue st)
    /\ DebugLdr.serial st'
       = DebugLdr.serial st
         ++ DebugLdr.SerialPrintln
              (DebugLdr.SStr "WARNING: No valid readings! Using previous value.")
            :: rest.
Proof.
  intros H.
  pose proof (readLDRSensor_run analogRead millis st) as R. cbv zeta in R.
  rewrite (tally_all_rejected analogRead 5 (DebugLdr.reads st) 0 0 H) in R.
  cbn [fst snd Z.eqb] in R.
  eexists. eexists. split; [exact R|].
  cbn [DebugLdr.adcValue DebugLdr.voltage DebugLdr.serial app].
  repeat split.
Qed.

Lemma readLDRSensor_keeps_last_value_witness :
  exists st' rest,
    DebugLdr.readLDRSensor (fun _ => 4095) 1000 DebugLdr.power_up = Some (tt, st')
    /\ DebugLdr.adcValue st' = 0
    /\ DebugLdr.serial st'
       = DebugLdr.SerialPrintln
           (DebugLdr.SStr "WARNING: No valid readings! Using previous value.")
         :: rest.
Proof.
  destruct (readLDRSensor_keeps_last_value (fun _ => 4095) 1000 DebugLdr.power_up)
    as (st' & rest & R & A & _ & S).
  - intros k _. right. lia.
  - exists st', rest. split; [exact R|]. split; [exact A|exact S].
Defined.

(** X10.  [calibrateLDR] always ends, with [adcValue] between 11 and 4084;
    from any state with [adcValue] in that range, any number [n] of passes
    of [loop] ends without a division by zero, with [n] frames, [5 * n]
    reads consumed, and [adcValue] still in that range. *)
Theorem adcValue_stays_in_range :
  (forall (analogRead : nat -> Z) (st : DebugLdr.Sketch),
      exists st',
        DebugLdr.calibrateLDR analogRead st = Some (tt, st')
        /\ 11 <= DebugLdr.adcValue st' <= 4084)
  /\ (forall (analogRead : nat -> Z) (clock : nat -> Z) (n k : nat)
             (st : DebugLdr.Sketch),
        11 <= DebugLdr.adcValue st <= 4084 ->
        exists frames st',
          DebugLdr.loops analogRead clock k n st = Some (frames, st')
          /\ List.length frames = n
          /\ DebugLdr.reads st' = (5 * n + DebugLdr.reads st)%nat
          /\ 11 <= DebugLdr.adcValue st' <= 4084).
Proof.
  split.
  - intros analogRead st.
    destruct (calibrateLDR_result analogRead st) as (st' & R & A & _).
    exists st'. split; assumption.
  - intros analogRead clock n.
    induction n as [|m IH]; intros k st V.
    + exists [], st. repeat split; [simpl; lia|lia].
    + destruct (readLDRSensor_result analogRead (clock k) st)
        as (st1 & R1 & A1 & _ & _ & _ & _ & Rd1).
      destruct (loop_run analogRead (clock k) st) as (st1' & R1' & L1).
      rewrite R1 in R1'. injection R1' as <-.
      match type of L1 with
      | _ = Some (_, ?s) =>
          destruct (IH (S k) s) as (frames & st' & Rl & Len & Rd & A)
      end.
      { cbn [DebugLdr.adcValue]. destruct A1 as [-> | A1]; assumption. }
      exists (DebugLdr.updateDisplay st1 :: frames), st'.
      split.
      { cbn [DebugLdr.loops]. unfold DebugLdr.bind at 1. rewrite L1.
        unfold DebugLdr.bind at 1. rewrite Rl. reflexivity. }
      split; [simpl; lia|]. split; [|exact A].
      rewrite Rd. cbn [DebugLdr.reads]. lia.
Qed.

Lemma adcValue_stays_in_range_witness :
  exists frames st',
    DebugLdr.loops (fun _ => 4095) (fun k => Z.of_nat k) 0 3
      (DebugLdr.mkSketch 2048 (F32.of_Z 0) (F32.of_Z 0) (F32.of_Z 0) 0 0 O [])
    = Some (frames, st')
    /\ List.length frames = 3%nat
    /\ 11 <= DebugLdr.adcValue st' <= 4084.
Proof.
  destruct (proj2 adcValue_stays_in_range (fun _ => 4095) (fun k => Z.of_nat k) 3%nat 0%nat
              (DebugLdr.mkSketch 2048 (F32.of_Z 0) (F32.of_Z 0) (F32.of_Z 0) 0 0 O []))
    as (frames & st' & R & L & _ & A).
  - simpl. lia.
  - exists frames, st'. split; [exact R|]. split; [exact L|exact A].
Defined.

(** X11.  If every read gives the same value [r] strictly between 10 and
    4085, [calibrateLDR] and [readLDRSensor] both store exactly [r]. *)
Theorem steady_signal_is_kept (analogRead : nat -> Z) (r : Z) :
  10 < r < 4085 ->
  (forall (st : DebugLdr.Sketch),
      (forall k, (50 + DebugLdr.reads st <= k < 70 + DebugLdr.reads st)%nat ->
                 analogRead k = r) ->
      exists st',
        DebugLdr.calibrateLDR analogRead st = Some (tt, st')
        /\ DebugLdr.adcValue st' = r)
  /\ (forall (millis : Z) (st : DebugLdr.Sketch),
        (forall k, (DebugLdr.reads st <= k < 5 + DebugLdr.reads st)%nat ->
                   analogRead k = r) ->
        exists st',
          DebugLdr.readLDRSensor analogRead millis st = Some (tt, st')
          /\ DebugLdr.adcValue st' = r).
Proof.
  intros Hr. split.
  - intros st H.
    pose proof (calibrateLDR_run analogRead st) as R. cbv zeta in R.
    rewrite (tally_steady analogRead r 20 (50 + DebugLdr.reads st) 0 0 Hr) in R
      by (intros k Hk; apply H; lia).
    eexists. split; [exact R|].
    cbn [DebugLdr.adcValue fst snd].
    replace (0 + Z.of_nat 20) with 20 by reflexivity.
    replace (0 + Z.of_nat 20 * r) with (r * 20) by lia.
    cbn [Z.eqb]. apply Z.quot_mul. lia.
  - intros millis st H.
    pose proof (readLDRSensor_run analogRead millis st) as R. cbv zeta in R.
    rewrite (tally_steady analogRead r 5 (DebugLdr.reads st) 0 0 Hr) in R
      by (intros k Hk; apply H; lia).
    eexists. split; [exact R|].
    cbn [DebugLdr.adcValue fst snd].
    replace (0 + Z.of_nat 5) with 5 by reflexivity.
    replace (0 + Z.of_nat 5 * r) with (r * 5) by lia.
    cbn [Z.eqb]. apply Z.quot_mul. lia.
Qed.

Lemma steady_signal_is_kept_witness :
  exists st',
    DebugLdr.calibrateLDR (fun _ => 1234) DebugLdr.power_up = Some (tt, st')
    /\ DebugLdr.adcValue st' = 1234.
Proof.
  apply (proj1 (steady_signal_is_kept (fun _ => 1234) 1234 ltac:(lia))
           DebugLdr.power_up).
  intros k _. reflexivity.
Defined.

(** A pass of [readLDRSensor] started with a 12-bit [adcValue] ends with
    one. *)
Lemma readLDRSensor_in_range (analogRead : nat -> Z) (millis : Z)
      (st st' : DebugLdr.Sketch) :
  0 <= DebugLdr.adcValue st <= 4095 ->
  DebugLdr.readLDRSensor analogRead millis st = Some (tt, st') ->
  0 <= DebugLdr.adcValue st' <= 4095
  /\ DebugLdr.voltage st' = DebugLdr.voltageOfAdc (DebugLdr.adcValue st')
  /\ DebugLdr.lightIntensity st' = DebugLdr.luxOfVoltage (DebugLdr.voltage st')
  /\ DebugLdr.irradiance st'
     = F32.of_f64 (F64.div (F64.of_f32 (DebugLdr.lightIntensity st')) (F64.of_Z 120)).
Proof.
  intros V R.
  destruct (readLDRSensor_result analogRead millis st)
    as (s & Rs & A & Ev & El & Ei & _).
  rewrite Rs in R. injection R as <-.
  assert (V' : 0 <= DebugLdr.adcValue s <= 4095)
    by (destruct A as [-> | A]; lia).
  split; [exact V'|]. split; [exact Ev|]. split; [|exact Ei].
  rewrite El, Ev.
  exact (proj1 (debug_lux_facts (DebugLdr.adcValue s) V')).
Qed.

(** X12.  Started with a 12-bit [adcValue], [readLDRSensor] converts like
    [calibrateLDR]: when both end with the same [adcValue] they store the
    same voltage, lux and irradiance.  The "at least 1 lux" correction,
    which only [readLDRSensor] has, never changes the result. *)
Theorem conversions_agree
        (read1 read2 : nat -> Z) (millis : Z) (st1 st2 : DebugLdr.Sketch) :
  0 <= DebugLdr.adcValue st1 <= 4095 ->
  exists s1 s2,
    DebugLdr.readLDRSensor read1 millis st1 = Some (tt, s1)
    /\ DebugLdr.calibrateLDR read2 st2 = Some (tt, s2)
    /\ (DebugLdr.adcValue s1 = DebugLdr.adcValue s2 ->
        DebugLdr.voltage s1 = DebugLdr.voltage s2
        /\ DebugLdr.lightIntensity s1 = DebugLdr.lightIntensity s2
        /\ DebugLdr.irradiance s1 = DebugLdr.irradiance s2).
Proof.
  intros V.
  destruct (readLDRSensor_result read1 millis st1) as (s1 & R1 & _).
  destruct (calibrateLDR_result read2 st2) as (s2 & R2 & _ & Ev2 & El2 & Ei2).
  destruct (readLDRSensor_in_range read1 millis st1 s1 V R1) as (_ & Ev1 & El1 & Ei1).
  exists s1, s2. split; [exact R1|]. split; [exact R2|].
  intros E.
  assert (Hv : DebugLdr.voltage s1 = DebugLdr.voltage s2) by congruence.
  assert (Hl : DebugLdr.lightIntensity s1 = DebugLdr.lightIntensity s2) by congruence.
  split; [exact Hv|]. split; [exact Hl|]. congruence.
Qed.

Lemma conversions_agree_witness :
  exists s1 s2,
    DebugLdr.readLDRSensor (fun _ => 700) 0 DebugLdr.power_up = Some (tt, s1)
    /\ DebugLdr.calibrateLDR (fun _ => 700) DebugLdr.power_up = Some (tt, s2)
    /\ (DebugLdr.adcValue s1 = DebugLdr.adcValue s2 ->
        DebugLdr.voltage s1 = DebugLdr.voltage s2
        /\ DebugLdr.lightIntensity s1 = DebugLdr.lightIntensity s2
        /\ DebugLdr.irradiance s1 = DebugLdr.irradiance s2).
Proof.
  apply (conversions_agree (fun _ => 700) (fun _ => 700) 0
           DebugLdr.power_up DebugLdr.power_up).
  simpl. lia.
Defined.

(** X13.  After [readLDRSensor] and after [calibrateLDR] the stored
    irradiance is the stored lux divided by 120, also when the "at least
    1 lux" correction has set both. *)
Theorem irradiance_follows_lux (analogRead : nat -> Z) (millis : Z) (st : DebugLdr.Sketch) :
  (exists st',
      DebugLdr.readLDRSensor analogRead millis st = Some (tt, st')
      /\ DebugLdr.irradiance st'
         = F32.of_f64 (F64.div (F64.of_f32 (DebugLdr.lightIntensity st')) (F64.of_Z 120)))
  /\ (exists st',
        DebugLdr.calibrateLDR analogRead st = Some (tt, st')
        /\ DebugLdr.irradiance st'
           = F32.of_f64 (F64.div (F64.of_f32 (DebugLdr.lightIntensity st')) (F64.of_Z 120))).
Proof.
  split.
  - destruct (readLDRSensor_result analogRead millis st) as (s & R & _ & _ & _ & Ei & _).
    exists s. split; assumption.
  - destruct (calibrateLDR_result analogRead st) as (s & R & _ & _ & _ & Ei).
    exists s. split; assumption.
Qed.

(** X14.  After [readLDRSensor] on a 12-bit [adcValue] the lux is finite;
    it is 50000 exactly when [adcValue] is at most 372, 0 exactly when it
    is at least 3723, and in between it is the value of the linear
    formula, strictly between 0 and 50000: the clamps never act. *)
Theorem readLDRSensor_lux_bands (analogRead : nat -> Z) (millis : Z) (st : DebugLdr.Sketch) :
  0 <= DebugLdr.adcValue st <= 4095 ->
  exists st',
    DebugLdr.readLDRSensor analogRead millis st = Some (tt, st')
    /\ is_finite (DebugLdr.lightIntensity st') = true
    /\ (DebugLdr.adcValue st' <= 372 <-> DebugLdr.lightIntensity st' = F32.of_Z 50000)
    /\ (3723 <= DebugLdr.adcValue st' <-> DebugLdr.lightIntensity st' = F32.of_Z 0)
    /\ (372 < DebugLdr.adcValue st' < 3723 ->
        DebugLdr.lightIntensity st' = DebugLdr.linearMap (DebugLdr.voltage st')
        /\ (0 < F2Q (DebugLdr.lightIntensity st') < 50000 # 1)%Q).
Proof.
  intros V.
  destruct (readLDRSensor_result analogRead millis st) as (s & R & _).
  destruct (readLDRSensor_in_range analogRead millis st s V R) as (V' & Ev & El & _).
  exists s. split; [exact R|].
  destruct (debug_lux_facts (DebugLdr.adcValue s) V')
    as (_ & Fin & Hi & Lo & Mid & Eq0 & _).
  cbv zeta in Fin, Hi, Lo, Mid, Eq0.
  rewrite <- Ev, <- El in Fin, Hi, Lo, Mid, Eq0.
  split; [exact Fin|].
  assert (Q50 : F2Q (F32.of_Z 50000) == 50000 # 1) by (vm_compute; reflexivity).
  assert (Q0 : F2Q (F32.of_Z 0) == 0) by (vm_compute; reflexivity).
  split; [|split; [|exact Mid]].
  - split; [exact Hi|]. intros E.
    destruct (Z_le_gt_dec (DebugLdr.adcValue s) 372) as [L|G]; [exact L|exfalso].
    destruct (Z_lt_ge_dec (DebugLdr.adcValue s) 3723) as [L|G'].
    + destruct (Mid ltac:(lia)) as (_ & _ & B). rewrite E, Q50 in B.
      exact (Qlt_irrefl _ B).
    + rewrite (Lo ltac:(lia)) in E. discriminate E.
  - split; [exact Lo|]. intros E.
    rewrite E in Eq0. change (F32.eqb (F32.of_Z 0) (F32.of_Z 0)) with true in Eq0.
    apply Z.leb_le. symmetry. exact Eq0.
Qed.

Lemma readLDRSensor_lux_bands_witness :
  exists st',
    DebugLdr.readLDRSensor (fun _ => 4000) 0 DebugLdr.power_up = Some (tt, st')
    /\ is_finite (DebugLdr.lightIntensity st') = true
    /\ (DebugLdr.adcValue st' <= 372 <-> DebugLdr.lightIntensity st' = F32.of_Z 50000)
    /\ (3723 <= DebugLdr.adcValue st' <-> DebugLdr.lightIntensity st' = F32.of_Z 0)
    /\ (372 < DebugLdr.adcValue st' < 3723 ->
        DebugLdr.lightIntensity st' = DebugLdr.linearMap (DebugLdr.voltage st')
        /\ (0 < F2Q (DebugLdr.lightIntensity st') < 50000 # 1)%Q).
Proof.
  apply (readLDRSensor_lux_bands (fun _ => 4000) 0 DebugLdr.power_up).
  simpl. lia.
Defined.

(** The diagnostic lux never rises with the sample. *)
Lemma debug_lux_antitone (a b : Z) :
  0 <= a -> a <= b -> b <= 4095 ->
  (F2Q (DebugLdr.luxOfVoltage (adcVoltage b))
   <= F2Q (DebugLdr.luxOfVoltage (adcVoltage a)))%Q.
Proof.
  intros Ha Hab Hb.
  destruct (Z.eq_dec a b) as [->|Hne]; [apply Qle_refl|].
  apply (chain (fun i j => (F2Q (DebugLdr.luxOfVoltage (adcVoltage j))
                            <= F2Q (DebugLdr.luxOfVoltage (adcVoltage i)))%Q) 0 4095).
  - intros x y z H1 H2. exact (Qle_trans _ _ _ H2 H1).
  - intros k Hk. exact (proj1 (proj2 (step_props k ltac:(lia)))).
  - lia.
  - exact Hb.
Qed.

(** X15.  Of two passes of [readLDRSensor] on 12-bit values, the one that
    ends with the smaller or equal [adcValue] stores the smaller or equal
    voltage and the larger or equal lux. *)
Theorem more_light_never_reads_darker
        (read1 read2 : nat -> Z) (t1 t2 : Z) (st1 st2 : DebugLdr.Sketch) :
  0 <= DebugLdr.adcValue st1 <= 4095 ->
  0 <= DebugLdr.adcValue st2 <= 4095 ->
  exists s1 s2,
    DebugLdr.readLDRSensor read1 t1 st1 = Some (tt, s1)
    /\ DebugLdr.readLDRSensor read2 t2 st2 = Some (tt, s2)
    /\ (DebugLdr.adcValue s1 <= DebugLdr.adcValue s2 ->
        (F2Q (DebugLdr.lightIntensity s2) <= F2Q (DebugLdr.lightIntensity s1))%Q
        /\ (F2Q (DebugLdr.voltage s1) <= F2Q (DebugLdr.voltage s2))%Q).
Proof.
  intros V1 V2.
  destruct (readLDRSensor_result read1 t1 st1) as (s1 & R1 & _).
  destruct (readLDRSensor_result read2 t2 st2) as (s2 & R2 & _).
  destruct (readLDRSensor_in_range read1 t1 st1 s1 V1 R1) as (W1 & Ev1 & El1 & _).
  destruct (readLDRSensor_in_range read2 t2 st2 s2 V2 R2) as (W2 & Ev2 & El2 & _).
  exists s1, s2. split; [exact R1|]. split; [exact R2|].
  intros L.
  rewrite El1, El2, Ev1, Ev2.
  rewrite !voltageOfAdc_adcVoltage by assumption.
  split.
  - apply debug_lux_antitone; lia.
  - destruct (Z.eq_dec (DebugLdr.adcValue s1) (DebugLdr.adcValue s2)) as [->|Hne];
      [apply Qle_refl|].
    apply Qlt_le_weak.
    apply (chain (fun i j => (F2Q (adcVoltage i) < F2Q (adcVoltage j))%Q) 0 4095).
    + intros x y z H1 H2. exact (Qlt_trans _ _ _ H1 H2).
    + intros k Hk. exact (proj1 (step_props k ltac:(lia))).
    + lia.
    + lia.
Qed.

Lemma more_light_never_reads_darker_witness :
  exists s1 s2,
    DebugLdr.readLDRSensor (fun _ => 500) 0 DebugLdr.power_up = Some (tt, s1)
    /\ DebugLdr.readLDRSensor (fun _ => 3000) 0 DebugLdr.power_up = Some (tt, s2)
    /\ (DebugLdr.adcValue s1 <= DebugLdr.adcValue s2 ->
        (F2Q (DebugLdr.lightIntensity s2) <= F2Q (DebugLdr.lightIntensity s1))%Q
        /\ (F2Q (DebugLdr.voltage s1) <= F2Q (DebugLdr.voltage s2))%Q).
Proof.
  apply (more_light_never_reads_darker (fun _ => 500) (fun _ => 3000) 0 0
           DebugLdr.power_up DebugLdr.power_up); simpl; lia.
Defined.

Lemma prints_app (s : string) (l1 l2 : list DebugLdr.SerialEvent) :
  DebugLdr.prints s (l1 ++ l2) = DebugLdr.prints s l1 || DebugLdr.prints s l2.
Proof. apply existsb_app. Qed.

(** Which of its alternative lines [printDataToSerial] prints. *)
Lemma printDataToSerial_lines (st : DebugLdr.Sketch) :
  let out := DebugLdr.emitted DebugLdr.printDataToSerial st in
  let v := F64.of_f32 (DebugLdr.voltage st) in
  let li := DebugLdr.lightIntensity st in
  DebugLdr.prints "Formula: DARK (0 Lux) - Voltage >= 3.0V" out
  = F64.geb v (F64.of_Z 3)
  /\ DebugLdr.prints "Formula: BRIGHT (50k Lux) - Voltage <= 0.3V" out
     = negb (F64.geb v (F64.of_Z 3)) && F64.leb v lit_0_3
  /\ DebugLdr.prints "Formula: Linear Map - " out
     = negb (F64.geb v (F64.of_Z 3)) && negb (F64.leb v lit_0_3)
  /\ DebugLdr.prints "Status: DARK" out
     = negb (F32.gtb li (F32.of_Z 10000)) && negb (F32.gtb li (F32.of_Z 100))
       && negb (F32.gtb li (F32.of_Z 0)).
Proof.
  destruct st as [a v l i t c r s].
  cbv zeta. cbn [DebugLdr.voltage DebugLdr.lightIntensity].
  run_report.
  all: repeat split; reflexivity.
Qed.

(** Which of its alternative texts [updateDisplay] draws for the light
    level. *)
Lemma updateDisplay_texts (st : DebugLdr.Sketch) :
  let frame := DebugLdr.updateDisplay st in
  let li := DebugLdr.lightIntensity st in
  draws "0 (DARK)" frame = F32.eqb li (F32.of_Z 0)
  /\ draws "DARK" frame
     = negb (F32.gtb li (F32.of_Z 10000)) && negb (F32.gtb li (F32.of_Z 100))
       && negb (F32.gtb li (F32.of_Z 0)).
Proof.
  destruct st as [a v l i t c r s].
  cbv zeta. unfold DebugLdr.updateDisplay.
  cbn [DebugLdr.lightIntensity DebugLdr.irradiance DebugLdr.timestamp
       DebugLdr.readingCount DebugLdr.adcValue DebugLdr.voltage].
  cbv zeta.
  destruct (F32.eqb l (F32.of_Z 0)); destruct (F32.ltb l (F32.of_Z 1000));
    destruct (F32.ltb l (F32.of_Z 10000)); destruct (F32.eqb i (F32.of_Z 0));
    destruct (F32.ltb i (F32.of_Z 100)); destruct (F32.gtb l (F32.of_Z 10000));
    destruct (F32.gtb l (F32.of_Z 100)); destruct (F32.gtb l (F32.of_Z 0)).
  all: split; reflexivity.
Qed.

(** The comparisons of the stored lux with the display thresholds, on a
    12-bit sample. *)
Lemma dark_tests (adc : Z) :
  0 <= adc <= 4095 ->
  let lux := DebugLdr.luxOfVoltage (DebugLdr.voltageOfAdc adc) in
  negb (F32.gtb lux (F32.of_Z 10000)) && negb (F32.gtb lux (F32.of_Z 100))
  && negb (F32.gtb lux (F32.of_Z 0)) = (3723 <=? adc).
Proof.
  intros V. cbv zeta.
  destruct (debug_lux_facts adc V) as (_ & _ & _ & Lo & _ & _ & Gt0 & _).
  cbv zeta in Lo, Gt0.
  destruct (3723 <=? adc) eqn:D.
  - apply Z.leb_le in D. rewrite (Lo D). vm_compute. reflexivity.
  - rewrite Gt0. apply Z.leb_gt in D. apply Z.ltb_lt in D. rewrite D.
    cbn [negb]. apply andb_false_r.
Qed.

(** One pass of [loop], with what [readLDRSensor] itself may print: only
    its two warnings. *)
Lemma loop_pass (analogRead : nat -> Z) (millis : Z) (st : DebugLdr.Sketch) :
  exists s1 warn,
    DebugLdr.readLDRSensor analogRead millis st = Some (tt, s1)
    /\ DebugLdr.loop analogRead millis st
       = Some (DebugLdr.updateDisplay s1,
               DebugLdr.mkSketch (DebugLdr.adcValue s1) (DebugLdr.voltage s1)
                 (DebugLdr.lightIntensity s1) (DebugLdr.irradiance s1)
                 (DebugLdr.timestamp s1) (DebugLdr.readingCount s1)
                 (DebugLdr.reads s1)
                 (DebugLdr.serial st
                  ++ warn ++ DebugLdr.emitted DebugLdr.printDataToSerial s1))
    /\ (forall t, DebugLdr.prints t warn = true ->
                  In t ["WARNING: No valid readings! Using previous value.";
                        "HIGH ADC WARNING: "; " -> V: "; " -> Lux: ";
                        "Try increasing light or check sensor connection"]%string).
Proof.
  pose proof (readLDRSensor_run analogRead millis st) as R. cbv zeta in R.
  match type of R with
  | _ = Some (tt, DebugLdr.mkSketch _ _ _ _ _ _ _ (_ ++ ?w1 ++ ?w2)) =>
      set (warn1 := w1) in *; set (warn2 := w2) in *
  end.
  match type of R with _ = Some (tt, ?s) => set (s1 := s) in * end.
  assert (Es : DebugLdr.serial s1 = DebugLdr.serial st ++ warn1 ++ warn2)
    by reflexivity.
  clearbody s1.
  exists s1, (warn1 ++ warn2). split; [exact R|].
  split.
  - unfold DebugLdr.loop.
    unfold DebugLdr.bind at 1. rewrite R.
    unfold DebugLdr.bind at 1. unfold DebugLdr.get at 1.
    unfold DebugLdr.bind at 1. rewrite printDataToSerial_run.
    rewrite Es, <- !app_assoc. reflexivity.
  - intros t. rewrite prints_app. subst warn1 warn2.
    destruct (snd (DebugLdr.tally analogRead (DebugLdr.reads st) 5 0 0) =? 0);
      match goal with |- context [if ?c then _ else _] => destruct c end;
      cbn [DebugLdr.prints existsb orb In];
      intros H;
      repeat match type of H with
             | (_ || _) = true => apply orb_true_iff in H; destruct H as [H | H]
             | String.eqb _ _ = true => apply String.eqb_eq in H; subst t
             | false = true => discriminate H
             end; tauto.
Qed.

Lemma not_a_warning (t : string) (warn : list DebugLdr.SerialEvent) :
  (forall t, DebugLdr.prints t warn = true ->
             In t ["WARNING: No valid readings! Using previous value.";
                   "HIGH ADC WARNING: "; " -> V: "; " -> Lux: ";
                   "Try increasing light or check sensor connection"]%string) ->
  (if in_dec string_dec t
        ["WARNING: No valid readings! Using previous value.";
         "HIGH ADC WARNING: "; " -> V: "; " -> Lux: ";
         "Try increasing light or check sensor connection"]%string
   then false else true) = true ->
  DebugLdr.prints t warn = false.
Proof.
  intros W N. destruct (DebugLdr.prints t warn) eqn:P; [|reflexivity].
  apply W in P. destruct (in_dec string_dec t _); [discriminate N|contradiction].
Qed.

(** X16.  In a pass of [loop] on a 12-bit [adcValue] the "Formula:" line
    of the serial report names the branch that produced the stored lux:
    the DARK line is printed exactly when the lux is 0, the BRIGHT line
    exactly when it is 50000, and the linear-map line exactly when the lux
    is the value of the linear formula, strictly between 0 and 50000. *)
Theorem formula_line_names_the_branch
        (analogRead : nat -> Z) (millis : Z) (st : DebugLdr.Sketch) :
  0 <= DebugLdr.adcValue st <= 4095 ->
  exists frame st' out,
    DebugLdr.loop analogRead millis st = Some (frame, st')
    /\ DebugLdr.serial st' = DebugLdr.serial st ++ out
    /\ (DebugLdr.prints "Formula: DARK (0 Lux) - Voltage >= 3.0V" out = true
        <-> DebugLdr.lightIntensity st' = F32.of_Z 0)
    /\ (DebugLdr.prints "Formula: BRIGHT (50k Lux) - Voltage <= 0.3V" out = true
        <-> DebugLdr.lightIntensity st' = F32.of_Z 50000)
    /\ (DebugLdr.prints "Formula: Linear Map - " out = true
        <-> DebugLdr.lightIntensity st' = DebugLdr.linearMap (DebugLdr.voltage st')
            /\ (0 < F2Q (DebugLdr.lightIntensity st') < 50000 # 1)%Q).
Proof.
  intros V.
  destruct (loop_pass analogRead millis st) as (s1 & warn & R1 & L & W).
  destruct (readLDRSensor_in_range analogRead millis st s1 V R1) as (V' & Ev & El & _).
  destruct (debug_lux_facts (DebugLdr.adcValue s1) V')
    as (_ & _ & Hi & Lo & Mid & _ & _ & Ge & Le).
  cbv zeta in Hi, Lo, Mid, Ge, Le.
  rewrite <- Ev in Hi, Lo, Mid, Ge, Le. rewrite <- El in Hi, Lo, Mid.
  destruct (printDataToSerial_lines s1) as (P1 & P2 & P3 & _).
  cbv zeta in P1, P2, P3. rewrite Ge in P1, P2, P3. rewrite Le in P2, P3.
  eexists. eexists. eexists. split; [exact L|].
  cbn [DebugLdr.serial DebugLdr.lightIntensity DebugLdr.voltage].
  split; [reflexivity|].
  rewrite !prints_app, P1, P2, P3.
  rewrite !(not_a_warning _ warn W) by (vm_compute; reflexivity).
  cbn [orb].
  set (a := DebugLdr.adcValue s1) in *.
  assert (Q50 : F2Q (F32.of_Z 50000) == 50000 # 1) by (vm_compute; reflexivity).
  assert (Q0 : F2Q (F32.of_Z 0) == 0) by (vm_compute; reflexivity).
  assert (B : a <= 372 \/ 372 < a < 3723 \/ 3723 <= a) by lia.
  destruct B as [B | [B | B]].
  - replace (3723 <=? a) with false by (symmetry; apply Z.leb_gt; lia).
    replace (a <=? 372) with true by (symmetry; apply Z.leb_le; lia).
    cbn [negb andb]. pose proof (Hi B) as E.
    split; [|split].
    + split; [discriminate|]. intros E0. rewrite E0 in E. discriminate E.
    + split; [intros _; exact E|reflexivity].
    + split; [discriminate|]. intros (_ & _ & C). rewrite E, Q50 in C.
      exfalso. exact (Qlt_irrefl _ C).
  - replace (3723 <=? a) with false by (symmetry; apply Z.leb_gt; lia).
    replace (a <=? 372) with false by (symmetry; apply Z.leb_gt; lia).
    cbn [negb andb]. destruct (Mid B) as (E & C0 & C1).
    split; [|split].
    + split; [discriminate|]. intros E0. rewrite E0, Q0 in C0.
      exfalso. exact (Qlt_irrefl _ C0).
    + split; [discriminate|]. intros E0. rewrite E0, Q50 in C1.
      exfalso. exact (Qlt_irrefl _ C1).
    + split; [intros _|reflexivity]. split; [exact E|split; assumption].
  - replace (3723 <=? a) with true by (symmetry; apply Z.leb_le; lia).
    cbn [negb andb]. pose proof (Lo B) as E.
    split; [|split].
    + split; [intros _; exact E|reflexivity].
    + split; [discriminate|]. intros E0. rewrite E0 in E. discriminate E.
    + split; [discriminate|]. intros (_ & C & _). rewrite E, Q0 in C.
      exfalso. exact (Qlt_irrefl _ C).
Qed.

Lemma formula_line_names_the_branch_witness :
  exists frame st' out,
    DebugLdr.loop (fun _ => 2000) 0 DebugLdr.power_up = Some (frame, st')
    /\ DebugLdr.serial st' = DebugLdr.serial DebugLdr.power_up ++ out
    /\ (DebugLdr.prints "Formula: DARK (0 Lux) - Voltage >= 3.0V" out = true
        <-> DebugLdr.lightIntensity st' = F32.of_Z 0)
    /\ (DebugLdr.prints "Formula: BRIGHT (50k Lux) - Voltage <= 0.3V" out = true
        <-> DebugLdr.lightIntensity st' = F32.of_Z 50000)
    /\ (DebugLdr.prints "Formula: Linear Map - " out = true
        <-> DebugLdr.lightIntensity st' = DebugLdr.linearMap (DebugLdr.voltage st')
            /\ (0 < F2Q (DebugLdr.lightIntensity st') < 50000 # 1)%Q).
Proof.
  apply (formula_line_names_the_branch (fun _ => 2000) 0 DebugLdr.power_up).
  simpl. lia.
Defined.

(** X17.  In a pass of [loop] on a 12-bit [adcValue] the display and the
    serial report agree on darkness: the frame shows "0 (DARK)" and the
    indicator "DARK", and the report prints "Status: DARK", exactly when
    the [adcValue] the pass ends with is at least 3723. *)
Theorem dark_is_shown_from_3723
        (analogRead : nat -> Z) (millis : Z) (st : DebugLdr.Sketch) :
  0 <= DebugLdr.adcValue st <= 4095 ->
  exists frame st' out,
    DebugLdr.loop analogRead millis st = Some (frame, st')
    /\ DebugLdr.serial st' = DebugLdr.serial st ++ out
    /\ draws "0 (DARK)" frame = (3723 <=? DebugLdr.adcValue st')
    /\ draws "DARK" frame = (3723 <=? DebugLdr.adcValue st')
    /\ DebugLdr.prints "Status: DARK" out = (3723 <=? DebugLdr.adcValue st').
Proof.
  intros V.
  destruct (loop_pass analogRead millis st) as (s1 & warn & R1 & L & W).
  destruct (readLDRSensor_in_range analogRead millis st s1 V R1) as (V' & Ev & El & _).
  destruct (debug_lux_facts (DebugLdr.adcValue s1) V') as (_ & _ & _ & _ & _ & Eq0 & _).
  pose proof (dark_tests (DebugLdr.adcValue s1) V') as D.
  cbv zeta in Eq0, D. rewrite <- Ev, <- El in Eq0, D.
  destruct (printDataToSerial_lines s1) as (_ & _ & _ & P).
  destruct (updateDisplay_texts s1) as (T1 & T2).
  cbv zeta in P, T1, T2. rewrite D in P, T2. rewrite Eq0 in T1.
  eexists. eexists. eexists. split; [exact L|].
  cbn [DebugLdr.serial DebugLdr.adcValue].
  split; [reflexivity|].
  split; [exact T1|]. split; [exact T2|].
  rewrite prints_app, P.
  rewrite (not_a_warning _ warn W) by (vm_compute; reflexivity).
  reflexivity.
Qed.

Lemma dark_is_shown_from_3723_witness :
  exists frame st' out,
    DebugLdr.loop (fun _ => 3900) 0 DebugLdr.power_up = Some (frame, st')
    /\ DebugLdr.serial st' = DebugLdr.serial DebugLdr.power_up ++ out
    /\ draws "0 (DARK)" frame = (3723 <=? DebugLdr.adcValue st')
    /\ draws "DARK" frame = (3723 <=? DebugLdr.adcValue st')
    /\ DebugLdr.prints "Status: DARK" out = (3723 <=? DebugLdr.adcValue st').
Proof.
  apply (dark_is_shown_from_3723 (fun _ => 3900) 0 DebugLdr.power_up).
  simpl. lia.
Defined.

(** X18.  When all twenty calibration reads are rejected (a sensor stuck
    at either end), [calibrateLDR] followed by [manualCalibrationCheck],
    as in [setup], prints the calibration warning and then reports the
    substituted value 2048 as a normal reading: no warning frame is drawn
    and neither the HIGH nor the LOW diagnosis is printed. *)
Theorem stuck_sensor_passes_the_check (analogRead : nat -> Z) (st : DebugLdr.Sketch) :
  (forall k, (50 + DebugLdr.reads st <= k < 50 + DebugLdr.reads st + 20)%nat ->
             analogRead k <= 10 \/ 4085 <= analogRead k) ->
  exists st' out,
    DebugLdr.bind (DebugLdr.calibrateLDR analogRead)
      (fun _ => DebugLdr.manualCalibrationCheck) st = Some ([], st')
    /\ DebugLdr.adcValue st' = 2048
    /\ DebugLdr.serial st' = DebugLdr.serial st ++ out
    /\ DebugLdr.prints "WARNING: No valid readings during calibration!" out = true
    /\ DebugLdr.prints "✅ ADC reading looks normal" out = true
    /\ DebugLdr.prints "⚠️  HIGH ADC DETECTED!" out = false
    /\ DebugLdr.prints "⚠️  LOW ADC DETECTED!" out = false.
Proof.
  intros H.
  pose proof (calibrateLDR_run analogRead st) as R. cbv zeta in R.
  rewrite (tally_all_rejected analogRead 20 (50 + DebugLdr.reads st) 0 0 H) in R.
  cbn [fst snd Z.eqb] in R.
  match type of R with
  | _ = Some (tt, ?s) =>
      destruct (manualCalibrationCheck_run s) as (frame & C & F)
  end.
  cbn [DebugLdr.adcValue] in F.
  assert (Ef : frame = []) by (apply F; lia). subst frame.
  eexists. eexists. split.
  { unfold DebugLdr.bind. rewrite R. exact C. }
  cbn [DebugLdr.adcValue DebugLdr.serial].
  split; [reflexivity|].
  split; [rewrite <- !app_assoc; reflexivity|].
  rewrite !prints_app.
  match goal with
  | |- context [if ?c then _ else _] =>
      let b := eval vm_compute in c in
      replace c with b by (vm_compute; reflexivity)
  end.
  repeat split; vm_compute; reflexivity.
Qed.

Lemma stuck_sensor_passes_the_check_witness :
  exists st' out,
    DebugLdr.bind (DebugLdr.calibrateLDR (fun _ => 4095))
      (fun _ => DebugLdr.manualCalibrationCheck) DebugLdr.power_up = Some ([], st')
    /\ DebugLdr.adcValue st' = 2048
    /\ DebugLdr.serial st' = DebugLdr.serial DebugLdr.power_up ++ out
    /\ DebugLdr.prints "WARNING: No valid readings during calibration!" out = true
    /\ DebugLdr.prints "✅ ADC reading looks normal" out = true
    /\ DebugLdr.prints "⚠️  HIGH ADC DETECTED!" out = false
    /\ DebugLdr.prints "⚠️  LOW ADC DETECTED!" out = false.
Proof.
  apply (stuck_sensor_passes_the_check (fun _ => 4095) DebugLdr.power_up).
  intros k _. right. lia.
Defined.
